(** * Classroom board: progression, settlement, retry and login logic

    A shallow embedding of the reward and progression code of [src/App.js]
    (a React single-page application over a remote document store), followed
    by the properties its specification states about it.

    Modelling conventions.
    - JavaScript numbers are modelled as unbounded integers [Z]: the program
      only adds small integer rewards and compares against [level * 100].
      Non-integral, [NaN] and infinite doubles are outside the model.
    - A field of a document that may be missing is an [option]; the
      JavaScript idiom [x || d] is written out by the [or_*] functions.
    - Objects used as dictionaries (skills, [completedDays], the account
      tables) are [gmap string _].
    - Asynchronous functions are run to completion one after the other:
      every [await] is a sequential step in a state-and-exception monad over
      the remote store. Interleavings of concurrently running handlers are
      not modelled. *)

From stdpp Require Import gmap strings list fin_maps pretty.
From Equations Require Import Equations.

Local Open Scope string_scope.
Local Open Scope Z_scope.

(** ** JavaScript truthiness on the values the program uses *)

Module Js.

(** [x || d] for a numeric field [x] that may be [undefined]: the default
    is taken when the field is missing and also when it is [0]. *)
Definition or_num (x : option Z) (d : Z) : Z :=
  match x with
  | Some n => if decide (n = 0) then d else n
  | None => d
  end.

(** [x || {}] for a dictionary field. An object, even an empty one, is
    truthy. *)
Definition or_obj {V} (x : option (gmap string V)) : gmap string V :=
  default ∅ x.

(** [!!x] for a boolean field that may be [undefined]. *)
Definition truthy (x : option bool) : bool := default false x.

(** A string is truthy when it is not empty. *)
Definition truthy_str (s : string) : bool :=
  match s with EmptyString => false | String _ _ => true end.

End Js.

(** ** Skill names *)

Definition literacy : string := "문해력".
Definition numeracy : string := "수리력".
Definition creativity : string := "창의력".
Definition responsibility : string := "책임감".
Definition problem_solving : string := "문제 해결 능력".
Definition self_direction : string := "자기 주도 학습 능력".

(** ** The account tables (App.js, lines 27-32)

    The tables are mutable: the teacher dashboard adds and deletes students.
    These are their initial contents. *)

Definition studentAccounts0 : gmap string string :=
  list_to_map
    [("김대수", "1024"); ("김주한", "0623"); ("김차영", "0630"); ("김태린", "0609");
     ("김혜지", "1029"); ("안준희", "1207"); ("인선우", "1010"); ("정군", "0420");
     ("정유이", "0609"); ("최지음", "0820"); ("박초", "1022")].

Definition teacherAccounts0 : gmap string string := {[ "교사" := "5555" ]}.

(** ** Documents of the remote store *)

(** Values of fields the progression code never inspects. *)
Inductive scalar :=
| SNum (n : Z)
| SStr (s : string)
| SBool (b : bool)
| SNull
| STime (t : nat).

(** [serverTimestamp()] puts a sentinel in the written data; the store
    replaces it by its own time when the write is applied. *)
Inductive timestamp :=
| serverTimestamp
| At (t : nat).

(** A profile document (private copy or public mirror). The five fields the
    progression code reads or writes are typed; [others] holds every other
    field of the document ([userId], [role], [displayName], [isDeleted],
    [createdAt], ...). *)
Record profile := Profile {
  xp : option Z;
  gold : option Z;
  level : option Z;
  skills : option (gmap string Z);
  lastUpdate : option timestamp;
  others : gmap string scalar
}.

(** The [updates] argument of [updateStudentProfile]: every part is optional. *)
Record updates := Updates {
  upd_xp : option Z;
  upd_gold : option Z;
  upd_skills : option (gmap string Z)
}.

(** ** The progression computation (App.js, lines 262-282) *)

(** [while (newXP >= newLevel * 100) { newLevel++; }] The loop ends on
    every pair of integers: the distance from [newLevel * 100] up to
    [newXP] shrinks by 100 at each turn. *)
Equations? levelUp (newXP newLevel : Z) : Z
  by wf (Z.to_nat (newXP - newLevel * 100 + 1)) lt :=
  levelUp newXP newLevel with decide (newXP >= newLevel * 100) => {
    | left _ => levelUp newXP (newLevel + 1);
    | right _ => newLevel }.
Proof. lia. Qed.

(** [for (const skill in updates.skills)
       newSkills[skill] = (newSkills[skill] || 0) + (updates.skills[skill] || 0);]
    The keys of an object are pairwise distinct, so the order of the
    enumeration does not matter; [map_fold] visits each key once. *)
Definition addSkills (current upd : gmap string Z) : gmap string Z :=
  map_fold
    (λ skill inc newSkills,
       <[skill := Js.or_num (newSkills !! skill) 0 + Js.or_num (Some inc) 0]> newSkills)
    current upd.

Definition newSkillsOf (currentData : profile) (u : updates) : gmap string Z :=
  let newSkills := Js.or_obj (skills currentData) in
  match upd_skills u with
  | Some s => addSkills newSkills s
  | None => newSkills
  end.

(** The body of [updateStudentProfile] between reading the source document
    and writing the result: [currentData] is the snapshot read. *)
Definition updatedProfile (currentData : profile) (u : updates) : profile :=
  let newXP := Js.or_num (xp currentData) 0 + Js.or_num (upd_xp u) 0 in
  let newGold := Js.or_num (gold currentData) 0 + Js.or_num (upd_gold u) 0 in
  let newLevel := levelUp newXP (Js.or_num (level currentData) 1) in
  {| xp := Some newXP;
     gold := Some newGold;
     level := Some newLevel;
     skills := Some (newSkillsOf currentData u);
     lastUpdate := Some serverTimestamp;
     others := others currentData |}.

(** ** The remote store and the session *)

(** The mission documents of the collection [missions]. The identifier of a
    document is its key in the collection, not a field. *)
Record mission := Mission {
  studentId : string;
  missionType : string;
  rewardXp : option Z;
  rewardGold : option Z;
  isCompleted : option bool;
  isPendingApproval : option bool;
  isStudentRewarded : option bool;
  missionOthers : gmap string scalar
}.

(** The routine documents of a user's [customRoutines] collection. *)
Record routine := Routine {
  completedDays : option (gmap string bool);
  routineOthers : gmap string scalar
}.

(** The document paths of [firebasePaths], with the deployment prefix left
    out. *)
Inductive profileRef :=
| userProfile (userId : string)
| publicStudentProfile (userId : string).

Inductive docRef :=
| profileDoc (r : profileRef)
| missionDoc (missionId : string)
| customRoutineDoc (userId routineId : string).

Record world := World {
  studentAccounts : gmap string string;
  teacherAccounts : gmap string string;
  currentUser : option string;
  privateProfiles : gmap string profile;
  publicProfiles : gmap string profile;
  missions : gmap string mission;
  customRoutines : gmap (string * string) routine;
  (** requests the store refuses (no permission, no connection) *)
  rejects : docRef → bool;
  (** the time of the store *)
  clock : nat;
  (** the lines written by [console.error], oldest first *)
  console : list string;
  userRole : option string;
  loading : bool
}.

Definition set_privateProfiles (f : gmap string profile → gmap string profile) (w : world) : world :=
  World (studentAccounts w) (teacherAccounts w) (currentUser w) (f (privateProfiles w))
        (publicProfiles w) (missions w) (customRoutines w) (rejects w) (clock w)
        (console w) (userRole w) (loading w).

Definition set_publicProfiles (f : gmap string profile → gmap string profile) (w : world) : world :=
  World (studentAccounts w) (teacherAccounts w) (currentUser w) (privateProfiles w)
        (f (publicProfiles w)) (missions w) (customRoutines w) (rejects w) (clock w)
        (console w) (userRole w) (loading w).

Definition set_missions (f : gmap string mission → gmap string mission) (w : world) : world :=
  World (studentAccounts w) (teacherAccounts w) (currentUser w) (privateProfiles w)
        (publicProfiles w) (f (missions w)) (customRoutines w) (rejects w) (clock w)
        (console w) (userRole w) (loading w).

Definition set_customRoutines
    (f : gmap (string * string) routine → gmap (string * string) routine) (w : world) : world :=
  World (studentAccounts w) (teacherAccounts w) (currentUser w) (privateProfiles w)
        (publicProfiles w) (missions w) (f (customRoutines w)) (rejects w) (clock w)
        (console w) (userRole w) (loading w).

Definition tick (w : world) : world :=
  World (studentAccounts w) (teacherAccounts w) (currentUser w) (privateProfiles w)
        (publicProfiles w) (missions w) (customRoutines w) (rejects w) (S (clock w))
        (console w) (userRole w) (loading w).

Definition log (line : string) (w : world) : world :=
  World (studentAccounts w) (teacherAccounts w) (currentUser w) (privateProfiles w)
        (publicProfiles w) (missions w) (customRoutines w) (rejects w) (clock w)
        (console w ++ [line]) (userRole w) (loading w).

Definition set_userRole (r : option string) (w : world) : world :=
  World (studentAccounts w) (teacherAccounts w) (currentUser w) (privateProfiles w)
        (publicProfiles w) (missions w) (customRoutines w) (rejects w) (clock w)
        (console w) r (loading w).

Definition set_loading (b : bool) (w : world) : world :=
  World (studentAccounts w) (teacherAccounts w) (currentUser w) (privateProfiles w)
        (publicProfiles w) (missions w) (customRoutines w) (rejects w) (clock w)
        (console w) (userRole w) b.

(** ** Asynchronous code as a state and exception monad *)

(** A thrown [Error] is represented by its message. *)
Definition error := string.

Inductive outcome (A : Type) :=
| Ok (a : A)
| Throw (e : error).
Arguments Ok {A} a.
Arguments Throw {A} e.

Definition io (A : Type) : Type := world → outcome A * world.

Definition ret {A} (a : A) : io A := λ w, (Ok a, w).
Definition throw {A} (e : error) : io A := λ w, (Throw e, w).
Definition bind {A B} (m : io A) (k : A → io B) : io B :=
  λ w, match m w with
       | (Ok a, w') => k a w'
       | (Throw e, w') => (Throw e, w')
       end.
(** [try { m } catch (error) { h(error) }] *)
Definition try_catch {A} (m : io A) (h : error → io A) : io A :=
  λ w, match m w with
       | (Ok a, w') => (Ok a, w')
       | (Throw e, w') => h e w'
       end.
(** [try { m } finally { f }] with an [f] that does not throw. *)
Definition try_finally {A} (m : io A) (f : world → world) : io A :=
  λ w, let '(r, w') := m w in (r, f w').
Definition modify (f : world → world) : io unit := λ w, (Ok tt, f w).
Definition gets {A} (f : world → A) : io A := λ w, (Ok (f w), w).

(** The sequencing notations [x ← m; k] and [m;; k] of stdpp stand for
    [const x = await m; k] and [await m; k]. *)
#[global] Instance io_ret : MRet io := @ret.
#[global] Instance io_bind : MBind io := λ A B k m, bind m k.

(** ** The operations of the document store

    The store is an external service; these definitions fix the part of its
    documented behaviour the program relies on. A refused request throws and
    changes nothing. Every applied write advances the clock of the store.
    Which requests are refused is decided document by document ([rejects]):
    a document either serves every read and write or refuses them all, and
    this does not change while a handler runs. A store that serves the read
    of a document and then refuses a write to the same document is not a
    world of this model. *)

Definition refused : error := "unavailable".
Definition not_found : error := "not-found".

Definition guard (r : docRef) : io unit :=
  λ w, if rejects w r then (Throw refused, w) else (Ok tt, w).

Definition profileAt (r : profileRef) (w : world) : option profile :=
  match r with
  | userProfile userId => privateProfiles w !! userId
  | publicStudentProfile userId => publicProfiles w !! userId
  end.

Definition putProfile (r : profileRef) (p : profile) : world → world :=
  match r with
  | userProfile userId => set_privateProfiles <[userId := p]>
  | publicStudentProfile userId => set_publicProfiles <[userId := p]>
  end.

(** [getDoc(ref)]: the snapshot, [None] when [snap.exists()] is false. *)
Definition getDoc (r : profileRef) : io (option profile) :=
  guard (profileDoc r);; gets (profileAt r).

Definition resolve (now : nat) (t : timestamp) : timestamp :=
  match t with
  | serverTimestamp => At now
  | At t => At t
  end.

(** A field of the written data replaces the stored one; a field the data
    does not have is kept. *)
Definition overwrite {A} (data stored : option A) : option A :=
  match data with
  | Some v => Some v
  | None => stored
  end.

(** A dictionary field is merged key by key: the keys of the written data
    are set, the other stored keys are kept. An empty dictionary in the
    written data replaces the stored field. *)
Definition mergeDict {V} `{EqDecision V} (data stored : option (gmap string V))
    : option (gmap string V) :=
  match data with
  | Some d => if decide (d = ∅) then Some ∅ else Some (d ∪ default ∅ stored)
  | None => stored
  end.

Definition emptyProfile : profile :=
  {| xp := None; gold := None; level := None; skills := None;
     lastUpdate := None; others := ∅ |}.

Definition mergeProfile (now : nat) (data stored : profile) : profile :=
  {| xp := overwrite (xp data) (xp stored);
     gold := overwrite (gold data) (gold stored);
     level := overwrite (level data) (level stored);
     skills := mergeDict (skills data) (skills stored);
     lastUpdate := overwrite (resolve now <$> lastUpdate data) (lastUpdate stored);
     others := others data ∪ others stored |}.

(** [setDoc(ref, data, { merge: true })]: creates the document when it does
    not exist. *)
Definition setDoc_merge (r : profileRef) (data : profile) : io unit :=
  guard (profileDoc r);;
  modify (λ w, tick (putProfile r
            (mergeProfile (clock w) data (default emptyProfile (profileAt r w))) w)).

(** [updateDoc(ref, fields)] on a mission: fails when the document does not
    exist. The fields written are given as a function on the document. *)
Definition updateDoc_mission (missionId : string) (fields : mission → mission) : io unit :=
  guard (missionDoc missionId);;
  stored ← gets (λ w, missions w !! missionId);
  match stored with
  | Some d => modify (λ w, tick (set_missions <[missionId := fields d]> w))
  | None => throw not_found
  end.

Definition updateDoc_routine (userId routineId : string) (fields : routine → routine)
    : io unit :=
  guard (customRoutineDoc userId routineId);;
  stored ← gets (λ w, customRoutines w !! (userId, routineId));
  match stored with
  | Some d => modify (λ w, tick (set_customRoutines <[(userId, routineId) := fields d]> w))
  | None => throw not_found
  end.

(** ** [updateStudentProfile] (App.js, lines 249-292) *)

Definition missing_source : string :=
  "Cannot update profile, source document for student does not exist.".

(** The document [updateStudentProfile] reads: the private copy when the
    owner updates, the public mirror otherwise. *)
Definition docToReadRef (userIdToUpdate updaterId : string) : profileRef :=
  if decide (userIdToUpdate = updaterId) then userProfile userIdToUpdate
  else publicStudentProfile userIdToUpdate.

Definition updateStudentProfile (userIdToUpdate : string) (u : updates) (updaterId : string)
    : io unit :=
  let studentDocRef := userProfile userIdToUpdate in
  let publicStudentProfileRef := publicStudentProfile userIdToUpdate in
  try_catch
    (studentProfileSnap ← getDoc (docToReadRef userIdToUpdate updaterId);
     match studentProfileSnap with
     | None => modify (log missing_source)
     | Some currentData =>
         let updated := updatedProfile currentData u in
         setDoc_merge publicStudentProfileRef updated;;
         if decide (userIdToUpdate = updaterId)
         then setDoc_merge studentDocRef updated
         else mret tt
     end)
    (λ error, modify (log ("Error updating student profile: " ++ error))).

(** ** Mission reward settlement (App.js, lines 331-358) *)

(** An element of the [dailyMissions] state: [{ id: d.id, ...d.data() }]. *)
Definition missionSnap : Type := string * mission.

(** [m.isCompleted && !m.isStudentRewarded] *)
Definition toReward (m : missionSnap) : bool :=
  Js.truthy (isCompleted m.2) && negb (Js.truthy (isStudentRewarded m.2)).

Definition skillUpdatesOf (missionType : string) : gmap string Z :=
  let skillUpdates : gmap string Z := {[ responsibility := 5 ]} in
  if decide (missionType = "읽기" ∨ missionType = "쓰기")
  then <[literacy := 10]> skillUpdates
  else if decide (missionType = "수리" ∨ missionType = "문제풀이")
  then <[numeracy := 10]> skillUpdates
  else skillUpdates.

Definition missionUpdates (m : mission) : updates :=
  {| upd_xp := rewardXp m; upd_gold := rewardGold m;
     upd_skills := Some (skillUpdatesOf (missionType m)) |}.

Definition markRewarded (d : mission) : mission :=
  Mission (studentId d) (missionType d) (rewardXp d) (rewardGold d) (isCompleted d)
          (isPendingApproval d) (Some true) (missionOthers d).

(** The body of the [for ... of] loop. *)
Definition rewardMission (userId : string) (m : missionSnap) : io unit :=
  let '(missionId, mission) := m in
  try_catch
    (updateStudentProfile userId (missionUpdates mission) userId;;
     updateDoc_mission missionId markRewarded)
    (λ error,
       modify (log ("Error processing reward for mission " ++ missionId ++ ": " ++ error))).

Fixpoint forOf {A} (l : list A) (body : A → io unit) : io unit :=
  match l with
  | [] => mret tt
  | x :: l' => body x;; forOf l' body
  end.

Definition processRewards (userId : string) (dailyMissions : list missionSnap) : io unit :=
  let missionsToReward := List.filter toReward dailyMissions in
  if decide (length missionsToReward = 0%nat) then mret tt
  else forOf missionsToReward (rewardMission userId).

(** The effect that runs [processRewards] each time [dailyMissions] changes. *)
Definition rewardEffect (userId : option string) (dailyMissions : list missionSnap) : io unit :=
  match userId with
  | Some userId =>
      if decide (length dailyMissions = 0%nat) then mret tt
      else processRewards userId dailyMissions
  | None => mret tt
  end.

(** ** Routine completion toggle (App.js, lines 431-439) *)

Definition routineSnap : Type := string * routine.

Definition routineUpdates : updates :=
  {| upd_xp := None; upd_gold := None;
     upd_skills := Some (<[responsibility := 5]> {[ self_direction := 10 ]}) |}.

(** The write of the field path [completedDays.<date>]. *)
Definition setCompletedDay (date : string) (b : bool) (d : routine) : routine :=
  Routine (Some (<[date := b]> (Js.or_obj (completedDays d)))) (routineOthers d).

Definition handleToggleTodaysRoutineCompletion
    (userId : option string) (todayDateString : string)
    (routine : routineSnap) (isNowChecked : bool) : io unit :=
  match userId with
  | None => mret tt
  | Some userId =>
      let '(routineId, r) := routine in
      let wasCompletedToday := Js.truthy (completedDays r ≫= (.!! todayDateString)) in
      try_catch
        (updateDoc_routine userId routineId (setCompletedDay todayDateString isNowChecked);;
         if isNowChecked && negb wasCompletedToday
         then updateStudentProfile userId routineUpdates userId
         else mret tt)
        (λ error, modify (log ("루틴 완료 토글 오류: " ++ error)))
  end.

(** ** Login (App.js, lines 109-141) *)

Inductive loginResult :=
| LoginOk (role : string)
| LoginFailed (error : string).

Definition initialSkills : gmap string Z :=
  <[literacy := 0]> (<[numeracy := 0]> (<[creativity := 0]> (<[responsibility := 0]>
    (<[problem_solving := 0]> {[ self_direction := 0 ]})))).

Definition userProfileData (uid role inputID : string) : profile :=
  {| xp := Some 0; gold := Some 0; level := Some 1; skills := Some initialSkills;
     lastUpdate := None;
     others := <["userId" := SStr uid]> (<["role" := SStr role]>
                 {[ "displayName" := SStr inputID ]}) |}.

(** [{ ...userProfileData, lastUpdate: serverTimestamp(), isDeleted: false }] *)
Definition publicProfileData (data : profile) : profile :=
  {| xp := xp data; gold := gold data; level := level data; skills := skills data;
     lastUpdate := Some serverTimestamp;
     others := <["isDeleted" := SBool false]> (others data) |}.

Definition bad_credentials : error := "잘못된 ID 또는 비밀번호입니다.".

(** [currentUser w = None] stands for the first guard of [login]: the
    session is not established yet. *)
Definition login (inputID inputPassword : string) : io loginResult :=
  user ← gets currentUser;
  match user with
  | None => mret (LoginFailed "Firebase is not ready.")
  | Some uid =>
      modify (set_loading true);;
      try_finally
        (try_catch
           (students ← gets studentAccounts;
            teachers ← gets teacherAccounts;
            role ← (if decide (students !! inputID = Some inputPassword) then mret "student"
                    else if decide (teachers !! inputID = Some inputPassword) then mret "teacher"
                    else throw bad_credentials);
            let data := userProfileData uid role inputID in
            setDoc_merge (userProfile uid) data;;
            (if decide (role = "student")
             then setDoc_merge (publicStudentProfile uid) (publicProfileData data)
             else mret tt);;
            modify (set_userRole (Some role));;
            mret (LoginOk role))
           (λ error, modify (log ("Login failed: " ++ error));; mret (LoginFailed error)))
        (set_loading false)
  end.

(** ** The retrying remote call (App.js, lines 161-193) *)

Module Gemini.

(** The part of a response body the code reads. *)
Record part := Part { text : option string }.
Record content := Content { parts : option (list part) }.
Record candidate := Candidate { candidateContent : option content }.
Record errorObj := ErrorObj { message : option string }.
Record body := Body {
  bodyError : option errorObj;
  candidates : option (list candidate)
}.

(** [json] is what [await response.json()] gives: the parsed body, or
    the error it throws on a body that cannot be read. *)
Record response := Response {
  ok : bool;
  status : Z;
  json : error + body
}.

(** What one call of [fetch] does: it rejects, or it yields a response. *)
Definition fetched : Type := error + response.

Inductive event :=
| Fetch
| Sleep (ms : Z)
| ConsoleError (line : string).

(** [result.candidates?.[0]?.content?.parts?.[0]?.text] *)
Definition textOf (result : body) : option string :=
  cs ← candidates result;
  c ← head cs;
  ct ← candidateContent c;
  ps ← parts ct;
  p ← head ps;
  text p.

(** [errorBody.error?.message || 'Unknown error'] *)
Definition errorMessage (errorBody : body) : string :=
  match bodyError errorBody ≫= message with
  | Some m => if Js.truthy_str m then m else "Unknown error"
  | None => "Unknown error"
  end.

Definition invalid_structure : error := "Invalid Gemini API response structure.".

(** The body of the [try] block on what [fetch] did: the events it
    emits after the call, and the text returned or the error thrown. *)
Definition tryBlock (f : fetched) : list event * (error + string) :=
  match f with
  | inl e => ([], inl e)
  | inr response =>
      if ok response then
        match json response with
        | inl e => ([], inl e)
        | inr result =>
            match textOf result with
            | Some t =>
                if Js.truthy_str t then ([], inr t)
                else ([ConsoleError "Invalid Gemini API response structure:"],
                      inl invalid_structure)
            | None => ([ConsoleError "Invalid Gemini API response structure:"],
                       inl invalid_structure)
            end
        end
      else
        match json response with
        | inl e => ([], inl e)
        | inr errorBody =>
            ([], inl ("API call failed: " ++ pretty (status response) ++ " - "
                        ++ errorMessage errorBody))
        end
  end.

Definition attemptLine (i : nat) (e : error) : string :=
  "Gemini API call attempt " ++ pretty (i + 1)%nat ++ " failed: " ++ e.

(** The [for] loop from the value [i] of its counter on. [fetch i] is
    what the call of [fetch] in turn [i] does. The result is the trace
    of events and the value returned ([None] for [null]) or the error
    thrown. *)
Equations? attempts (fetch : nat → fetched) (retries i : nat) (delay : Z)
  : list event * outcome (option string) by wf (retries - i)%nat lt :=
  attempts fetch retries i delay with decide (i < retries)%nat => {
    | right _ => ([], Ok None)
    | left _ with tryBlock (fetch i) => {
        | (evs, inr t) => (Fetch :: evs, Ok (Some t))
        | (evs, inl e) with decide (i < retries - 1)%nat => {
            | left _ =>
                let '(tr, r) := attempts fetch retries (S i) (delay * 2) in
                (Fetch :: evs ++ ConsoleError (attemptLine i e) :: Sleep delay :: tr, r)
            | right _ =>
                (Fetch :: evs ++ [ConsoleError (attemptLine i e)], Throw e) } } }.
Proof. lia. Qed.

Definition callGeminiAPIWithExponentialBackoff (fetch : nat → fetched)
  : list event * outcome (option string) :=
  let retries := 3%nat in
  let delay := 1000 in
  attempts fetch retries 0 delay.

(** *** Observations on a run *)

(** The calls of [fetch] and the waits of a trace, in order, without the
    lines of the console. *)
Definition schedule (tr : list event) : list event :=
  List.filter (λ e, match e with ConsoleError _ => false | _ => true end) tr.

(** What an attempt gives: the text returned, or the error thrown. *)
Definition attempt (f : fetched) : error + string := (tryBlock f).2.

(** The responses the [try] block accepts. *)
Definition wellShaped (f : fetched) (t : string) : Prop :=
  ∃ response result,
    f = inr response ∧ ok response = true ∧ json response = inr result ∧
    textOf result = Some t ∧ t ≠ "".

End Gemini.

(** ** The mission handlers of the two dashboards
    (App.js, lines 395-399 and 528-541)

    The time a [serverTimestamp()] field receives is the time of the store
    when the write is applied. *)

(** [{ isPendingApproval: true, studentRequestedCompletionAt: serverTimestamp() }] *)
Definition requestFields (now : nat) (d : mission) : mission :=
  Mission (studentId d) (missionType d) (rewardXp d) (rewardGold d) (isCompleted d)
          (Some true) (isStudentRewarded d)
          (<["studentRequestedCompletionAt" := STime now]> (missionOthers d)).

Definition handleStudentRequestMissionCompletion (userId : option string)
    (missionId : string) : io unit :=
  match userId with
  | None => mret tt
  | Some _ =>
      try_catch
        (now ← gets clock; updateDoc_mission missionId (requestFields now))
        (λ error, modify (log ("미션 완료 요청 오류: " ++ error)))
  end.

(** [{ isCompleted: !isCompleted, isPendingApproval: false,
       completedAt: !isCompleted ? serverTimestamp() : null }] *)
Definition toggleFields (isCompleted0 : option bool) (now : nat) (d : mission) : mission :=
  let completed := negb (Js.truthy isCompleted0) in
  Mission (studentId d) (missionType d) (rewardXp d) (rewardGold d) (Some completed)
          (Some false) (isStudentRewarded d)
          (<["completedAt" := if completed then STime now else SNull]> (missionOthers d)).

Definition handleTeacherMissionToggle (studentId0 : string) (mission : missionSnap)
    (isCompleted0 : option bool) : io unit :=
  let '(missionId, _) := mission in
  try_catch
    (now ← gets clock; updateDoc_mission missionId (toggleFields isCompleted0 now))
    (λ error, modify (log ("미션 상태 토글 오류: " ++ error))).

(** ** The callers of the retrying call (App.js, lines 195-213 and 379-384)

    The request a caller builds (address, prompt, schema) only matters to
    the remote end, which is the stub [fetch]. [JSON.parse] is a parameter:
    it gives the parsed value or the error it throws. The parsed values are
    a type [J] with the value [null], which [JSON.parse] gives for the text
    [null]. *)

Module GeminiCallers.
Import Gemini.

Definition callGeminiAPI (fetch : nat → fetched) : list event * outcome (option string) :=
  callGeminiAPIWithExponentialBackoff fetch.

(** [return resultText ? JSON.parse(resultText) : null;] *)
Definition callGeminiAPIStructured {J} (null : J) (parse : string → error + J)
    (fetch : nat → fetched) : list event * outcome J :=
  let '(tr, r) := callGeminiAPIWithExponentialBackoff fetch in
  match r with
  | Ok (Some resultText) =>
      if Js.truthy_str resultText then
        match parse resultText with
        | inr v => (tr, Ok v)
        | inl e => (tr, Throw e)
        end
      else (tr, Ok null)
  | Ok None => (tr, Ok null)
  | Throw e => (tr, Throw e)
  end.

Definition feedback_failed : string := "피드백 생성에 실패했습니다.".
Definition feedback_error : string := "AI 피드백 생성 중 오류가 발생했습니다.".

(** The feedback [handleJournalSubmit] stores with a journal entry:
    [try { aiFeedback = await callGeminiAPI(prompt) || "..."; }
     catch (error) { aiFeedback = "..."; }] *)
Definition journalFeedback (fetch : nat → fetched) : string :=
  match (callGeminiAPI fetch).2 with
  | Ok (Some t) => if Js.truthy_str t then t else feedback_failed
  | Ok None => feedback_failed
  | Throw _ => feedback_error
  end.

End GeminiCallers.

(** ** The weekday selection of the routine form (App.js, line 441) *)

(** [p.includes(day) ? p.filter(d => d !== day) : [...p, day]] *)
Definition handleDayToggle (day : string) (p : list string) : list string :=
  if decide (day ∈ p) then filter (λ d, d ≠ day) p else (p ++ [day])%list.

(** ** The lists of the teacher dashboard (App.js, lines 483-522) *)

#[global] Instance scalar_eq_dec : EqDecision scalar.
Proof. solve_decision. Defined.

(** [!!x] on a field of a document. *)
Definition truthy_scalar (x : option scalar) : bool :=
  match x with
  | Some (SNum n) => bool_decide (n ≠ 0)
  | Some (SStr s) => Js.truthy_str s
  | Some (SBool b) => b
  | Some SNull => false
  | Some (STime _) => true
  | None => false
  end.

(** A row of the student list: [{ id, ...data, fromFirestore }]. The
    program writes no field [id] or [fromFirestore] into a profile, so the
    spread does not hide the two. *)
Record studentRow := StudentRow {
  rowId : string;
  rowData : profile;
  fromFirestore : bool
}.

Definition displayNameOf (row : studentRow) : option scalar :=
  others (rowData row) !! "displayName".

Definition isDeletedOf (row : studentRow) : option scalar :=
  others (rowData row) !! "isDeleted".

(** [s.docs.map(doc => ({ id: doc.id, ...doc.data(), fromFirestore: true }))] *)
Definition firestoreStudents (docs : list (string * profile)) : list studentRow :=
  (λ doc, StudentRow doc.1 doc.2 true) <$> docs.

Definition placeholder (name : string) : studentRow :=
  StudentRow ("placeholder_" ++ name)
    {| xp := Some 0; gold := Some 0; level := Some 0; skills := Some ∅;
       lastUpdate := None;
       others := <["displayName" := SStr name]> {[ "isDeleted" := SBool false ]} |}
    false.

(** [allStudentNames] is [Object.keys(studentAccounts)], the names of the
    account table in the order of the object. *)
Definition mergedStudents (allStudentNames : list string) (docs : list (string * profile))
    : list studentRow :=
  (λ name,
     let existingStudent :=
       List.find (λ fs, bool_decide (displayNameOf fs = Some (SStr name)))
                 (firestoreStudents docs) in
     match existingStudent with
     | Some fs => fs
     | None => placeholder name
     end) <$> allStudentNames.

Definition activeStudents (allStudentNames : list string) (docs : list (string * profile))
    : list studentRow :=
  List.filter (λ student, negb (truthy_scalar (isDeletedOf student)))
              (mergedStudents allStudentNames docs).

(** [reduce((acc, m) => { if (!acc[m.studentId]) acc[m.studentId] = [];
                          acc[m.studentId].push(m); return acc; }, {})]
    A student identifier that names a property every object inherits
    ([constructor], ...) is outside the model. *)
Definition missionsByStudent (docs : list missionSnap) : gmap string (list missionSnap) :=
  foldl (λ (acc : gmap string (list missionSnap)) (m : missionSnap),
           <[studentId m.2 := (default [] (acc !! studentId m.2) ++ [m])%list]> acc)
        ∅ docs.

(** ** Adding and hiding students (App.js, lines 611-660)

    The form and dialog states of the component are not part of the world.
    [isBlank s] stands for [!s.trim()], and [nowMs] for [Date.now()]. *)

Definition set_studentAccounts (f : gmap string string → gmap string string) (w : world)
    : world :=
  World (f (studentAccounts w)) (teacherAccounts w) (currentUser w) (privateProfiles w)
        (publicProfiles w) (missions w) (customRoutines w) (rejects w) (clock w)
        (console w) (userRole w) (loading w).

(** [setDoc(ref, data)] without merge: the document is replaced. The data
    are given as a function of the time of the store, for their
    [serverTimestamp()] fields. *)
Definition setDoc (r : profileRef) (data : nat → profile) : io unit :=
  guard (profileDoc r);;
  modify (λ w, tick (putProfile r (data (clock w)) w)).

(** [updateDoc(ref, fields)] on a profile: fails when the document does not
    exist. *)
Definition updateDoc_profile (r : profileRef) (fields : profile → profile) : io unit :=
  guard (profileDoc r);;
  stored ← gets (profileAt r);
  match stored with
  | Some d => modify (λ w, tick (putProfile r (fields d) w))
  | None => throw not_found
  end.

Definition studentProfileData (newStudentId newStudentName : string) (now : nat) : profile :=
  {| xp := Some 0; gold := Some 0; level := Some 1; skills := Some initialSkills;
     lastUpdate := None;
     others := <["userId" := SStr newStudentId]> (<["role" := SStr "student"]>
                 (<["displayName" := SStr newStudentName]> (<["createdAt" := STime now]>
                    {[ "isDeleted" := SBool false ]}))) |}.

Definition newStudentIdAt (nowMs : Z) : string := "student_" ++ pretty nowMs.

(** [obj[key] = value] on an object literal, the value being a string. The
    key [__proto__] names the accessor every such object inherits, and its
    setter ignores a value that is not an object: the assignment then
    changes nothing. Every other key becomes a property of the object
    itself. *)
Definition assign (key value : string) (obj : gmap string string) : gmap string string :=
  if decide (key = "__proto__") then obj else <[key := value]> obj.

Definition handleAddStudent (isBlank : string → bool) (nowMs : Z)
    (newStudentName newStudentPassword : string) : io unit :=
  if isBlank newStudentName || isBlank newStudentPassword then mret tt
  else
    try_catch
      (let newStudentId := newStudentIdAt nowMs in
       setDoc (publicStudentProfile newStudentId)
              (studentProfileData newStudentId newStudentName);;
       modify (set_studentAccounts (assign newStudentName newStudentPassword)))
      (λ error, modify (log ("학생 추가 중 오류 발생: " ++ error))).

(** [{ isDeleted: true }] *)
Definition markDeleted (d : profile) : profile :=
  Profile (xp d) (gold d) (level d) (skills d) (lastUpdate d)
          (<["isDeleted" := SBool true]> (others d)).

Definition handleDeleteStudent (studentToDelete : option (string * string)) : io unit :=
  match studentToDelete with
  | None => mret tt
  | Some (studentId0, studentName) =>
      try_catch
        (updateDoc_profile (publicStudentProfile studentId0) markDeleted;;
         modify (set_studentAccounts (delete studentName)))
        (λ error,
           modify (log ("Error hiding student " ++ studentName ++ ": " ++ error)))
  end.

(** ** Generating the missions of the day (App.js, lines 401-415)

    [generated] is what [await callGeminiAPIStructured(prompt, missionSchema)]
    gives: the parsed array of missions, [null], or an error thrown. Of a
    generated object only the fields the spread keeps matter: the fields
    [studentId] and the three flags are overwritten. *)

(** [deleteDoc(ref)] *)
Definition deleteDoc_mission (missionId : string) : io unit :=
  guard (missionDoc missionId);;
  modify (λ w, tick (set_missions (delete missionId) w)).

(** [addDoc(collRef, data)]: the store files the document under an
    identifier that is not in use. *)
Definition addDoc_mission (data : nat → mission) : io string :=
  id ← gets (λ w, fresh (dom (missions w)));
  guard (missionDoc id);;
  modify (λ w, tick (set_missions <[id := data (clock w)]> w));;
  mret id.

(** [getDocs(query(collRef, where("studentId", "==", userId)))]; in the
    model the store always answers the query. *)
Definition getDocs_missions (userId : string) : io (list missionSnap) :=
  gets (λ w, filter (λ m : missionSnap, studentId m.2 = userId) (map_to_list (missions w))).

(** [{ ...m, studentId: userId, generatedAt: serverTimestamp(),
       isCompleted: false, isPendingApproval: false, isStudentRewarded: false }] *)
Definition newMission (userId : string) (m : mission) (now : nat) : mission :=
  Mission userId (missionType m) (rewardXp m) (rewardGold m)
          (Some false) (Some false) (Some false)
          (<["generatedAt" := STime now]> (missionOthers m)).

Definition handleGenerateDailyMissions (userId : option string)
    (generated : outcome (option (list mission))) : io unit :=
  match userId with
  | None => mret tt
  | Some userId =>
      try_catch
        (missions ← (λ w, (generated, w));
         match missions with
         | Some (m :: ms) =>
             oldMissions ← getDocs_missions userId;
             forOf oldMissions (λ docSnap, deleteDoc_mission docSnap.1);;
             forOf (m :: ms) (λ m, addDoc_mission (newMission userId m);; mret tt)
         | _ => mret tt
         end)
        (λ error, modify (log ("일일 미션 생성 오류: " ++ error)))
  end.

(** ** Answering a question (App.js, lines 417-421)

    [normalize s] stands for [s.trim().toLowerCase()]. The results shown
    with the questions are a state of the component, not of the world. *)

Definition answerUpdates : updates :=
  {| upd_xp := None; upd_gold := None; upd_skills := Some {[ problem_solving := 15 ]} |}.

Definition handleAnswerSubmission (normalize : string → string) (userId : string)
    (answer correct : string) : io unit :=
  let isCorrect := bool_decide (normalize answer = normalize correct) in
  if isCorrect then updateStudentProfile userId answerUpdates userId else mret tt.

(** ** Adding recommended missions (App.js, lines 581-609) *)





(** * Vocabulary of the statements *)

(** A reward whose parts are all non-negative. *)
Definition nonneg_updates (u : updates) : Prop :=
  0 ≤ default 0 (upd_xp u) ∧ 0 ≤ default 0 (upd_gold u) ∧
  ∀ s skill inc, upd_skills u = Some s → s !! skill = Some inc → 0 ≤ inc.

(** The data of a full write is found in the document after the merge:
    the scalar fields as written, every key of [skills], the time of the
    store in [lastUpdate], and every other field of the data. *)
Definition carries (now : nat) (data doc : profile) : Prop :=
  xp doc = xp data ∧ gold doc = gold data ∧ level doc = level data ∧
  default ∅ (skills data) ⊆ default ∅ (skills doc) ∧
  lastUpdate doc = Some (At now) ∧
  others data ⊆ others doc.

(** The store accepts every request. *)
Definition accepting (w : world) : Prop := ∀ r, rejects w r = false.

(** The sum of a list of integers. *)
Definition sumZ (l : list Z) : Z := foldr Z.add 0 l.

(** The missions of a snapshot as the listener delivers them again from the
    store [w]. *)
Definition refresh (w : world) (l : list missionSnap) : list missionSnap :=
  omap (λ m : missionSnap, (m.1,.) <$> missions w !! m.1) l.

(** The score of a skill in the private profile of a user, 0 when there is
    none. *)
Definition score (w : world) (userId skill : string) : Z :=
  match privateProfiles w !! userId with
  | Some p => default 0 (default ∅ (skills p) !! skill)
  | None => 0
  end.

(** The completion of a date as a routine document shows it. *)
Definition completedOn (date : string) (d : routine) : bool :=
  Js.truthy (completedDays d ≫= (.!! date)).

(** The skill reward of a completed routine, by skill. *)
Definition routineReward (skill : string) : Z :=
  if decide (skill = self_direction) then 10
  else if decide (skill = responsibility) then 5
  else 0.

(** The number of changes from not completed to completed in a sequence of
    clicks, [was] being the completion before the first one. *)
Fixpoint rises (was : bool) (clicks : list bool) : Z :=
  match clicks with
  | [] => 0
  | isNowChecked :: clicks' =>
      (if isNowChecked && negb was then 1 else 0) + rises isNowChecked clicks'
  end.

(** One click on the checkbox of a routine: the handler is called with the
    routine as the listener last delivered it from the store. *)
Definition toggle (userId routineId todayDateString : string) (isNowChecked : bool)
    : io unit :=
  λ w, match customRoutines w !! (userId, routineId) with
       | Some d =>
           handleToggleTodaysRoutineCompletion (Some userId) todayDateString
             (routineId, d) isNowChecked w
       | None => (Ok tt, w)
       end.

(** The six skills of [initialSkills]. *)
Definition sixSkills : list string :=
  [literacy; numeracy; creativity; responsibility; problem_solving; self_direction].

(** A profile that shows the initial values in the fields of the
    progression. *)
Definition initialValues (p : profile) : Prop :=
  xp p = Some 0 ∧ gold p = Some 0 ∧ level p = Some 1 ∧
  ∀ skill, skill ∈ sixSkills → default ∅ (skills p) !! skill = Some 0.

(** The role [login] finds for credentials that match a table: the table of
    students is looked at first. *)
Definition roleOf (w : world) (inputID inputPassword : string) : string :=
  if decide (studentAccounts w !! inputID = Some inputPassword) then "student" else "teacher".

(** ** A sample session

    A student signed in as ["uid-1"], with a profile, a completed mission
    that is not rewarded yet, and a routine without completed days. *)

Definition sampleProfile : profile :=
  Profile (Some 95) (Some 40) (Some 1) (Some {[ literacy := 30 ]}) (Some (At 3))
          {[ "displayName" := SStr "김대수" ]}.

Definition sampleMission : mission :=
  Mission "uid-1" "읽기" (Some 10) (Some 5) (Some true) (Some false) (Some false) ∅.

Definition sampleRoutine : routine := Routine (Some ∅) ∅.

Definition sampleWorld : world :=
  World studentAccounts0 teacherAccounts0 (Some "uid-1")
        {[ "uid-1" := sampleProfile ]} {[ "uid-1" := sampleProfile ]}
        {[ "m1" := sampleMission ]} {[ ("uid-1", "r1") := sampleRoutine ]}
        (λ _, false) 4 [] (Some "student") false.

(** ** Vocabulary of the further properties *)

(** The level a profile shows is the level of its XP: one level per 100 XP,
    starting at level 1. *)
Definition leveled (p : profile) : Prop :=
  ∃ x, xp p = Some x ∧ 0 ≤ x ∧ level p = Some (x / 100 + 1).

(** The session, the account tables and the behaviour of the store are the
    same in both worlds. *)
Definition sessionKept (w w' : world) : Prop :=
  studentAccounts w' = studentAccounts w ∧ teacherAccounts w' = teacherAccounts w ∧
  currentUser w' = currentUser w ∧ userRole w' = userRole w ∧ loading w' = loading w ∧
  rejects w' = rejects w.

(** The profile documents of every user but [userId] are the same in both
    worlds. *)
Definition otherProfilesKept (userId : string) (w w' : world) : Prop :=
  ∀ other, other ≠ userId →
    privateProfiles w' !! other = privateProfiles w !! other ∧
    publicProfiles w' !! other = publicProfiles w !! other.

(** The world [w] with another behaviour of the store. *)
Definition set_rejects (f : docRef → bool) (w : world) : world :=
  World (studentAccounts w) (teacherAccounts w) (currentUser w) (privateProfiles w)
        (publicProfiles w) (missions w) (customRoutines w) f (clock w)
        (console w) (userRole w) (loading w).

(** A store that refuses the public mirrors and nothing else. *)
Definition refusesMirrors (r : docRef) : bool :=
  match r with
  | profileDoc (publicStudentProfile _) => true
  | _ => false
  end.

(** A store that refuses the mission documents and nothing else. *)
Definition refusesMissions (r : docRef) : bool :=
  match r with
  | missionDoc _ => true
  | _ => false
  end.

(** From [w] to [w'] no mission document is created or deleted, and the
    only change to a mission is the flag [isStudentRewarded] being set on a
    mission of [ids]. *)
Definition flagsOnly (ids : list string) (w w' : world) : Prop :=
  ∀ id, missions w' !! id = missions w !! id ∨
        (id ∈ ids ∧ ∃ d, missions w !! id = Some d ∧
                         missions w' !! id = Some (markRewarded d)).

(** The checkbox of a mission on the teacher dashboard:
    [onChange={() => handleTeacherMissionToggle(student.id, m, m.isCompleted)}]
    on the mission as the listener last delivered it from the store. *)
Definition teacherClick (studentId0 missionId : string) : io unit :=
  λ w, match missions w !! missionId with
       | Some d => handleTeacherMissionToggle studentId0 (missionId, d) (isCompleted d) w
       | None => (Ok tt, w)
       end.

(** Two mission documents that differ at most in the fields the dashboards
    write before settlement: [isCompleted], [isPendingApproval] and the two
    time stamps. *)
Definition sameReward (d d' : mission) : Prop :=
  studentId d' = studentId d ∧ missionType d' = missionType d ∧
  rewardXp d' = rewardXp d ∧ rewardGold d' = rewardGold d ∧
  isStudentRewarded d' = isStudentRewarded d.

(** From [w] to [w'] nothing changes but the mission [missionId], which, if
    it changes, keeps its reward and its flag [isStudentRewarded]. *)
Definition onlyMission (missionId : string) (w w' : world) : Prop :=
  sessionKept w w' ∧
  privateProfiles w' = privateProfiles w ∧ publicProfiles w' = publicProfiles w ∧
  customRoutines w' = customRoutines w ∧
  (∀ id, id ≠ missionId → missions w' !! id = missions w !! id) ∧
  (missions w' !! missionId = missions w !! missionId ∨
   ∃ d d', missions w !! missionId = Some d ∧ missions w' !! missionId = Some d' ∧
           sameReward d d').

(** * Properties *)

(** ** The leveling loop *)

Section Leveling.

Implicit Types newXP newLevel : Z.

(** One turn of the loop. *)
Lemma levelUp_step newXP newLevel :
  levelUp newXP newLevel =
    if decide (newXP >= newLevel * 100) then levelUp newXP (newLevel + 1) else newLevel.
Proof. rewrite (levelUp_equation_1 newXP newLevel). by destruct (decide _). Qed.

Lemma levelUp_ge newXP newLevel : newLevel ≤ levelUp newXP newLevel.
Proof. funelim (levelUp newXP newLevel); lia. Qed.

(** On exit the test of the loop is false. *)
Lemma levelUp_exit newXP newLevel : newXP < levelUp newXP newLevel * 100.
Proof. funelim (levelUp newXP newLevel); lia. Qed.

(** Every level the loop went through passed the test. *)
Lemma levelUp_passed newXP newLevel k :
  newLevel ≤ k < levelUp newXP newLevel → newXP >= k * 100.
Proof.
  funelim (levelUp newXP newLevel); intros Hk; [|lia].
  destruct (decide (k = newLevel)) as [->|]; [lia|]. apply H. lia.
Qed.

(** The three facts above determine the result. *)
Lemma levelUp_unique newXP newLevel L :
  newLevel ≤ L → newXP < L * 100 → (∀ k, newLevel ≤ k < L → newXP >= k * 100) →
  levelUp newXP newLevel = L.
Proof.
  intros Hge Hexit Hpassed.
  pose proof (levelUp_ge newXP newLevel). pose proof (levelUp_exit newXP newLevel).
  pose proof (levelUp_passed newXP newLevel).
  destruct (Z.lt_trichotomy (levelUp newXP newLevel) L) as [?|[?|?]]; [|done|].
  - specialize (Hpassed (levelUp newXP newLevel)). lia.
  - specialize (H1 L). lia.
Qed.

Example levelUp_105 : levelUp 105 1 = 2.
Proof. reflexivity. Qed.

Example levelUp_below_zero : levelUp 0 (-3) = 1.
Proof. reflexivity. Qed.

End Leveling.

Lemma or_num_0 (x : option Z) : Js.or_num x 0 = default 0 x.
Proof. destruct x as [n|]; simpl; [|done]. by destruct (decide (n = 0)). Qed.

(** [level || 1] never goes below the stored level. *)
Lemma or_num_1_ge (l : Z) : l ≤ Js.or_num (Some l) 1.
Proof. simpl. destruct (decide (l = 0)); lia. Qed.

(** ** The skill loop *)

Section Skills.

Implicit Types current upd : gmap string Z.

(** The skill loop key by key. *)
Lemma addSkills_lookup current upd skill :
  addSkills current upd !! skill =
    match upd !! skill with
    | Some inc => Some (default 0 (current !! skill) + inc)
    | None => current !! skill
    end.
Proof.
  unfold addSkills.
  apply (map_fold_weak_ind (λ r (m : gmap string Z),
    r !! skill = match m !! skill with
                 | Some inc => Some (default 0 (current !! skill) + inc)
                 | None => current !! skill
                 end)).
  - by rewrite lookup_empty.
  - intros i x m r Hi IH. destruct (decide (i = skill)) as [->|Hne].
    + rewrite !lookup_insert_eq. rewrite Hi in IH. rewrite IH, !or_num_0. done.
    + by rewrite !lookup_insert_ne.
Qed.

Lemma newSkillsOf_lookup (p : profile) (u : updates) skill :
  newSkillsOf p u !! skill =
    match upd_skills u ≫= (.!! skill) with
    | Some inc => Some (default 0 (default ∅ (skills p) !! skill) + inc)
    | None => default ∅ (skills p) !! skill
    end.
Proof.
  unfold newSkillsOf, Js.or_obj. destruct (upd_skills u) as [s|]; simpl; [|done].
  apply addSkills_lookup.
Qed.

End Skills.

(** ** The progression computation *)

(** C2. For a profile whose [level] field holds [l], the update computes
    [newXp = xp + delta.xp] and [newGold = gold + delta.gold], a missing
    operand counting as 0, and its new level is the result of the loop
    started at [l]: the first level from [l] on at which
    [newXp >= level * 100] fails, every level before it having passed that
    test. The new level is never below [l]. The code starts the loop at
    [level || 1]; this is [l] unless [l] is 0, and a loop started at 0
    reaches 1 at once when [newXp] is not negative. *)
Theorem updatedProfile_xp_gold_level (p : profile) (u : updates) (l : Z) :
  level p = Some l →
  l ≠ 0 ∨ 0 ≤ default 0 (xp p) + default 0 (upd_xp u) →
  let newXp := default 0 (xp p) + default 0 (upd_xp u) in
  let p' := updatedProfile p u in
  xp p' = Some newXp ∧
  gold p' = Some (default 0 (gold p) + default 0 (upd_gold u)) ∧
  level p' = Some (levelUp newXp l) ∧
  l ≤ levelUp newXp l ∧
  newXp < levelUp newXp l * 100 ∧
  (∀ k, l ≤ k < levelUp newXp l → newXp >= k * 100).
Proof.
  intros Hl Hstart newXp p'. subst p'. unfold updatedProfile. simpl.
  rewrite !or_num_0, Hl. fold newXp.
  assert (levelUp newXp (Js.or_num (Some l) 1) = levelUp newXp l) as ->.
  { simpl. destruct (decide (l = 0)) as [->|]; [|done].
    rewrite (levelUp_step newXp 0). destruct (decide _); [done|]. subst newXp. lia. }
  split_and!; try done.
  - apply levelUp_ge.
  - apply levelUp_exit.
  - apply levelUp_passed.
Qed.

Lemma updatedProfile_xp_gold_level_witness :
  let p := Profile (Some 95) (Some 7) (Some 1) None None ∅ in
  let u := Updates (Some 10) None None in
  xp (updatedProfile p u) = Some 105 ∧ level (updatedProfile p u) = Some (levelUp 105 1).
Proof.
  intros p u.
  destruct (updatedProfile_xp_gold_level p u 1) as (Hxp & _ & Hlevel & _).
  - reflexivity.
  - left. lia.
  - split; [exact Hxp | exact Hlevel].
Defined.

(** The reward of a journal entry on a fresh profile. *)
Example journal_reward_scenario :
  updatedProfile
    (Profile (Some 0) (Some 0) (Some 1) (Some ∅) None ∅)
    (Updates (Some 10) (Some 5) (Some (<[literacy := 5]> {[ creativity := 5 ]}))) =
  Profile (Some 10) (Some 5) (Some 1) (Some (<[literacy := 5]> {[ creativity := 5 ]}))
          (Some serverTimestamp) ∅.
Proof. by vm_compute. Qed.

(** A reward can take several levels at once. *)
Example several_levels :
  level (updatedProfile (Profile (Some 40) None (Some 1) None None ∅)
           (Updates (Some 300) None None)) = Some 4.
Proof. reflexivity. Qed.

(** C3. From level 1 with 95 XP, a reward of 10 XP gives 105 XP and
    level 2; a further reward of 100 XP on that result gives 205 XP and
    level 3. The other fields of the profile and the other parts of the
    rewards do not matter. *)
Theorem leveling_scenario (g : option Z) (s : option (gmap string Z))
    (t : option timestamp) (o : gmap string scalar)
    (g1 g2 : option Z) (s1 s2 : option (gmap string Z)) :
  let p0 := Profile (Some 95) g (Some 1) s t o in
  let p1 := updatedProfile p0 (Updates (Some 10) g1 s1) in
  let p2 := updatedProfile p1 (Updates (Some 100) g2 s2) in
  xp p1 = Some 105 ∧ level p1 = Some 2 ∧ xp p2 = Some 205 ∧ level p2 = Some 3.
Proof. by cbn. Qed.

(** C4. Under a reward with non-negative parts, no component of the
    profile decreases: XP, gold, level, and the score of every skill the
    profile has. Nothing is assumed of the profile. *)
Theorem updatedProfile_monotone (p : profile) (u : updates) :
  nonneg_updates u →
  let p' := updatedProfile p u in
  (∃ x', xp p' = Some x' ∧ default 0 (xp p) ≤ x') ∧
  (∃ g', gold p' = Some g' ∧ default 0 (gold p) ≤ g') ∧
  (∃ l', level p' = Some l' ∧ ∀ l, level p = Some l → l ≤ l') ∧
  (∃ s', skills p' = Some s' ∧
     ∀ skill v, default ∅ (skills p) !! skill = Some v →
       ∃ v', s' !! skill = Some v' ∧ v ≤ v').
Proof.
  intros (Hxp & Hgold & Hskills) p'. subst p'. unfold updatedProfile. simpl.
  rewrite !or_num_0. split_and!.
  - eexists. split; [done|]. lia.
  - eexists. split; [done|]. lia.
  - eexists. split; [done|]. intros l ->.
    etrans; [apply or_num_1_ge | apply levelUp_ge].
  - eexists. split; [done|]. intros skill v Hv.
    rewrite newSkillsOf_lookup, Hv. simpl.
    destruct (upd_skills u) as [s|] eqn:Hs; simpl; [|by eauto with lia].
    destruct (s !! skill) as [inc|] eqn:Hinc; [|by eauto with lia].
    eexists. split; [done|]. specialize (Hskills s skill inc eq_refl Hinc). lia.
Qed.

Lemma updatedProfile_monotone_witness :
  let p := Profile (Some 95) (Some 7) (Some 1) (Some {[ literacy := 4 ]}) None ∅ in
  let u := Updates (Some 10) (Some 5) (Some {[ literacy := 5 ]}) in
  ∃ l', level (updatedProfile p u) = Some l' ∧ ∀ l, level p = Some l → l ≤ l'.
Proof.
  intros p u.
  refine (proj1 (proj2 (proj2 (updatedProfile_monotone p u _)))).
  split_and!; simpl; [lia | lia |].
  intros s skill inc [= <-] [<- <-]%lookup_singleton_Some. lia.
Defined.

(** C7. The update leaves every field other than [xp], [gold], [level],
    [skills] and [lastUpdate] as it was; [lastUpdate] is set to the time of
    the write; in [skills], a key of the reward gets its previous score, or 0
    when it had none, plus the increment, and every other key keeps its
    score (or stays absent). *)
Theorem updatedProfile_frame (p : profile) (u : updates) :
  let p' := updatedProfile p u in
  others p' = others p ∧
  lastUpdate p' = Some serverTimestamp ∧
  ∃ newSkills, skills p' = Some newSkills ∧
    ∀ skill,
      newSkills !! skill =
        match upd_skills u ≫= (.!! skill) with
        | Some inc => Some (default 0 (default ∅ (skills p) !! skill) + inc)
        | None => default ∅ (skills p) !! skill
        end.
Proof.
  intros p'. split_and!; [done..|].
  exists (newSkillsOf p u). split; [done|]. apply newSkillsOf_lookup.
Qed.

(** ** Running the monad *)

Ltac io_unfold :=
  unfold getDoc, setDoc_merge, updateDoc_mission, updateDoc_routine, guard,
    try_catch, try_finally, modify, gets, throw,
    mbind, io_bind, bind, mret, io_ret, ret in *.

Lemma mergeDict_subseteq (d : gmap string Z) (stored : option (gmap string Z)) :
  d ⊆ default ∅ (mergeDict (Some d) stored).
Proof.
  unfold mergeDict. destruct (decide (d = ∅)) as [->|]; simpl; [done|].
  apply map_union_subseteq_l.
Qed.

Lemma mergeProfile_updated_carries (now : nat) (cur stored : profile) (u : updates) :
  carries now (updatedProfile cur u) (mergeProfile now (updatedProfile cur u) stored).
Proof.
  unfold carries, mergeProfile. simpl. split_and!; try done.
  - apply mergeDict_subseteq.
  - apply map_union_subseteq_l.
Qed.

(** Merging the update of a document into that same document gives the
    update, with the time of the store. *)
Lemma mergeProfile_updated_self (now : nat) (cur : profile) (u : updates) :
  mergeProfile now (updatedProfile cur u) cur =
    Profile (xp (updatedProfile cur u)) (gold (updatedProfile cur u))
            (level (updatedProfile cur u)) (Some (newSkillsOf cur u))
            (Some (At now)) (others cur).
Proof.
  unfold mergeProfile. simpl. f_equal.
  - destruct (decide (newSkillsOf cur u = ∅)) as [->|]; [done|]. f_equal.
    apply map_eq. intros k. rewrite lookup_union, newSkillsOf_lookup.
    destruct (skills cur) as [s|]; simpl.
    + destruct (upd_skills u ≫= _); [by destruct (s !! k)|].
      by destruct (s !! k).
    + rewrite lookup_empty. by destruct (upd_skills u ≫= _).
  - apply map_eq. intros k. rewrite lookup_union. by destruct (others cur !! k).
Qed.

Section UpdateStudentProfile.

Variables (w : world) (userIdToUpdate updaterId : string) (u : updates).

(** No error leaves [updateStudentProfile], in any state of the store. *)
Lemma updateStudentProfile_returns :
  ∃ w', updateStudentProfile userIdToUpdate u updaterId w = (Ok tt, w').
Proof.
  unfold updateStudentProfile. io_unfold.
  repeat (case_match; simplify_eq/=); eauto.
Qed.

(** C8. When the source document does not exist, the call returns
    normally and the only change it makes is one line on the console:
    no document is written. When the store answers the read, the line is
    the message of the missing source document. *)
Theorem updateStudentProfile_missing_source :
  profileAt (docToReadRef userIdToUpdate updaterId) w = None →
  (∃ line, updateStudentProfile userIdToUpdate u updaterId w = (Ok tt, log line w)) ∧
  (rejects w (profileDoc (docToReadRef userIdToUpdate updaterId)) = false →
   updateStudentProfile userIdToUpdate u updaterId w = (Ok tt, log missing_source w)).
Proof.
  intros Hnone. unfold updateStudentProfile. io_unfold.
  destruct (rejects w (profileDoc (docToReadRef userIdToUpdate updaterId))) eqn:Hrej; simpl.
  - split; [eauto | done].
  - rewrite Hnone. split; [eauto | done].
Qed.

(** What a successful update writes. *)
Lemma updateStudentProfile_run (currentData : profile) :
  rejects w (profileDoc (publicStudentProfile userIdToUpdate)) = false →
  (userIdToUpdate = updaterId → rejects w (profileDoc (userProfile userIdToUpdate)) = false) →
  profileAt (docToReadRef userIdToUpdate updaterId) w = Some currentData →
  let updated := updatedProfile currentData u in
  let mirror := default emptyProfile (publicProfiles w !! userIdToUpdate) in
  let w1 := tick (set_publicProfiles
                    <[userIdToUpdate := mergeProfile (clock w) updated mirror]> w) in
  updateStudentProfile userIdToUpdate u updaterId w =
    (Ok tt,
     if decide (userIdToUpdate = updaterId)
     then tick (set_privateProfiles
                  <[userIdToUpdate := mergeProfile (S (clock w)) updated currentData]> w1)
     else w1).
Proof.
  intros Hpub Hpriv Hcur updated mirror w1. subst w1 mirror updated.
  unfold updateStudentProfile. io_unfold.
  revert Hcur. unfold docToReadRef.
  destruct (decide (userIdToUpdate = updaterId)) as [Heq|Hne]; simpl; intros Hcur.
  - rewrite (Hpriv Heq). simpl. rewrite Hcur. simpl. rewrite Hpub. simpl.
    rewrite (Hpriv Heq). simpl. rewrite Hcur. done.
  - rewrite Hpub. simpl. rewrite Hcur. simpl. rewrite Hpub. simpl. rewrite Hcur. done.
Qed.

(** C9. When the source document exists and the store accepts the writes,
    the public mirror is written with the updated profile, and it is the
    only profile document written unless the updating actor is the owner:
    then the private copy is written too, and otherwise no private document
    changes. Missions and routines are not touched. *)
Theorem updateStudentProfile_writes (currentData : profile) :
  rejects w (profileDoc (publicStudentProfile userIdToUpdate)) = false →
  (userIdToUpdate = updaterId → rejects w (profileDoc (userProfile userIdToUpdate)) = false) →
  profileAt (docToReadRef userIdToUpdate updaterId) w = Some currentData →
  ∃ w', updateStudentProfile userIdToUpdate u updaterId w = (Ok tt, w') ∧
    (∃ mirror', publicProfiles w' !! userIdToUpdate = Some mirror' ∧
       carries (clock w) (updatedProfile currentData u) mirror') ∧
    (userIdToUpdate = updaterId →
       ∃ private', privateProfiles w' !! userIdToUpdate = Some private' ∧
         carries (S (clock w)) (updatedProfile currentData u) private') ∧
    (userIdToUpdate ≠ updaterId → privateProfiles w' = privateProfiles w) ∧
    (∀ other, other ≠ userIdToUpdate →
       publicProfiles w' !! other = publicProfiles w !! other ∧
       privateProfiles w' !! other = privateProfiles w !! other) ∧
    missions w' = missions w ∧ customRoutines w' = customRoutines w.
Proof.
  intros Hpub Hpriv Hcur. eexists. split.
  { by apply updateStudentProfile_run. }
  destruct (decide (userIdToUpdate = updaterId)) as [Heq|Hne]; simpl.
  - split_and!; try done.
    + eexists. rewrite lookup_insert_eq. split; [done|].
      apply mergeProfile_updated_carries.
    + intros _. eexists. rewrite lookup_insert_eq. split; [done|].
      apply mergeProfile_updated_carries.
    + intros other Hother. by rewrite !lookup_insert_ne.
  - split_and!; try done.
    + eexists. rewrite lookup_insert_eq. split; [done|].
      apply mergeProfile_updated_carries.
    + intros other Hother. by rewrite !lookup_insert_ne.
Qed.

End UpdateStudentProfile.

Lemma updateStudentProfile_missing_source_witness :
  ∃ line,
    updateStudentProfile "uid-2" (Updates (Some 10) None None) "uid-2" sampleWorld =
      (Ok tt, log line sampleWorld).
Proof.
  apply (updateStudentProfile_missing_source sampleWorld "uid-2" "uid-2").
  reflexivity.
Defined.

Lemma updateStudentProfile_writes_witness :
  ∃ w', updateStudentProfile "uid-1" (Updates (Some 10) None None) "teacher-1" sampleWorld
          = (Ok tt, w') ∧
        privateProfiles w' = privateProfiles sampleWorld.
Proof.
  destruct (updateStudentProfile_writes sampleWorld "uid-1" "teacher-1"
              (Updates (Some 10) None None) sampleProfile)
    as (w' & Hrun & _ & _ & Hprivate & _).
  - reflexivity.
  - intros Heq. discriminate Heq.
  - reflexivity.
  - exists w'. split; [exact Hrun|]. apply Hprivate. intros Heq. discriminate Heq.
Defined.

(** ** Mission reward settlement *)

(** Closes [¬ (a = b ∧ (c = d ∨ c = e))] from the equations and
    disequations at hand. *)
Ltac excluded :=
  let H := fresh in
  intros [? H];
  first [ congruence
        | destruct H;
          repeat match goal with Hor : _ ∨ _ |- _ => destruct Hor end;
          congruence ].

(** The skill part of a mission reward, key by key. *)
Lemma skillUpdatesOf_lookup (missionType skill : string) :
  skillUpdatesOf missionType !! skill =
    if decide (skill = responsibility) then Some 5
    else if decide (skill = literacy ∧ (missionType = "읽기" ∨ missionType = "쓰기"))
    then Some 10
    else if decide (skill = numeracy ∧ (missionType = "수리" ∨ missionType = "문제풀이"))
    then Some 10
    else None.
Proof.
  unfold skillUpdatesOf.
  assert (literacy ≠ responsibility) by done.
  assert (numeracy ≠ responsibility) by done.
  assert (literacy ≠ numeracy) by done.
  assert ("읽기" ≠ "수리" ∧ "읽기" ≠ "문제풀이" ∧ "쓰기" ≠ "수리" ∧ "쓰기" ≠ "문제풀이")
    as (? & ? & ? & ?) by done.
  destruct (decide (skill = responsibility)) as [->|Hr].
  { repeat case_decide; by rewrite ?lookup_insert_ne, ?lookup_singleton_eq by done. }
  destruct (decide (missionType = "읽기" ∨ missionType = "쓰기")) as [Hrw|Hrw].
  - rewrite lookup_insert. destruct (decide (literacy = skill)) as [<-|Hl].
    + by rewrite decide_True.
    + rewrite lookup_singleton_ne by done.
      rewrite decide_False by excluded. rewrite decide_False; [done|excluded].
  - destruct (decide (missionType = "수리" ∨ missionType = "문제풀이")) as [Hmp|Hmp].
    + rewrite lookup_insert. destruct (decide (numeracy = skill)) as [<-|Hn].
      * rewrite decide_False by excluded. by rewrite decide_True.
      * rewrite lookup_singleton_ne by done.
        rewrite decide_False by excluded. rewrite decide_False; [done|excluded].
    + rewrite lookup_singleton_ne by done.
      rewrite decide_False by excluded. rewrite decide_False; [done|excluded].
Qed.

(** The test of the snapshot, in the fields of the mission: a flag
    [isStudentRewarded] that is missing counts as not set. *)
Lemma toReward_fields (m : missionSnap) :
  toReward m = true ↔ isCompleted m.2 = Some true ∧ isStudentRewarded m.2 ≠ Some true.
Proof.
  unfold toReward, Js.truthy.
  destruct (isCompleted m.2) as [[]|], (isStudentRewarded m.2) as [[]|]; simpl;
    split; try done; intros [? ?]; done.
Qed.

Lemma filter_toReward_fields (l : list missionSnap) :
  List.filter toReward l =
    filter (λ m : missionSnap,
              isCompleted m.2 = Some true ∧ isStudentRewarded m.2 ≠ Some true) l.
Proof.
  induction l as [|m l IH]; [done|]. simpl. rewrite filter_cons, IH.
  pose proof (toReward_fields m) as Hm.
  destruct (toReward m); case_decide as Hd; try done.
  - destruct Hd. by apply Hm.
  - by apply Hm in Hd.
Qed.

(** The flags after one more mission of the loop: [R id] says that the
    store serves the mission document [id]. *)
Lemma flagged_cons (R : string → Prop) `{!∀ id, Decision (R id)}
    (M M1 M' : gmap string mission) (missionId : string) (ids : list string) :
  (∀ id, M1 !! id = if decide (id = missionId ∧ R id) then markRewarded <$> M !! id
                    else M !! id) →
  (∀ id, M' !! id = if decide (id ∈ ids ∧ R id) then markRewarded <$> M1 !! id
                    else M1 !! id) →
  ∀ id, M' !! id = if decide (id ∈ missionId :: ids ∧ R id) then markRewarded <$> M !! id
                   else M !! id.
Proof.
  intros H1 H' id. rewrite H', H1.
  destruct (decide (R id)) as [HR|HR].
  - destruct (decide (id = missionId)) as [->|Hne].
    + rewrite (decide_True (P := missionId = missionId ∧ _)) by done.
      rewrite (decide_True (P := missionId ∈ missionId :: ids ∧ _)) by (split; [left|done]).
      case_decide; by destruct (M !! missionId).
    + rewrite (decide_False (P := id = missionId ∧ _)) by (by intros [? _]).
      destruct (decide (id ∈ ids)) as [Hin|Hnin].
      * rewrite (decide_True (P := id ∈ ids ∧ _)) by done.
        by rewrite (decide_True (P := id ∈ missionId :: ids ∧ _)) by (split; [by right|done]).
      * rewrite (decide_False (P := id ∈ ids ∧ _)) by (by intros [? _]).
        rewrite (decide_False (P := id ∈ missionId :: ids ∧ _)); [done|].
        rewrite elem_of_cons. by intros [[?|?] _].
  - rewrite (decide_False (P := id ∈ ids ∧ _)) by (by intros [_ ?]).
    rewrite (decide_False (P := id = missionId ∧ _)) by (by intros [_ ?]).
    by rewrite (decide_False (P := id ∈ missionId :: ids ∧ _)) by (by intros [_ ?]).
Qed.

(** What a rewarded profile has gained. *)
Lemma rewarded_gain (now : nat) (cur : profile) (m : mission) :
  let cur1 := mergeProfile now (updatedProfile cur (missionUpdates m)) cur in
  default 0 (xp cur1) = default 0 (xp cur) + default 0 (rewardXp m) ∧
  default 0 (gold cur1) = default 0 (gold cur) + default 0 (rewardGold m) ∧
  ∀ skill,
    default 0 (default ∅ (skills cur1) !! skill) =
      default 0 (default ∅ (skills cur) !! skill)
      + default 0 (skillUpdatesOf (missionType m) !! skill).
Proof.
  intros cur1. subst cur1. split_and!.
  - simpl. by rewrite !or_num_0.
  - simpl. by rewrite !or_num_0.
  - intros skill. rewrite mergeProfile_updated_self. simpl.
    rewrite newSkillsOf_lookup. simpl.
    destruct (skillUpdatesOf (missionType m) !! skill); simpl; lia.
Qed.

Section Settlement.

Variable userId : string.

Lemma rewardMission_run (w : world) (missionId : string) (m d : mission)
    (cur : profile) :
  accepting w →
  privateProfiles w !! userId = Some cur →
  missions w !! missionId = Some d →
  let updated := updatedProfile cur (missionUpdates m) in
  let mirror := default emptyProfile (publicProfiles w !! userId) in
  rewardMission userId (missionId, m) w =
    (Ok tt,
     tick (set_missions <[missionId := markRewarded d]>
       (tick (set_privateProfiles <[userId := mergeProfile (S (clock w)) updated cur]>
          (tick (set_publicProfiles <[userId := mergeProfile (clock w) updated mirror]>
             w)))))).
Proof.
  intros Hacc Hcur Hd updated mirror. unfold rewardMission.
  unfold try_catch at 1. unfold mbind at 1, io_bind at 1, bind at 1.
  rewrite (updateStudentProfile_run w userId userId _ cur); [|done|done|].
  2: { unfold docToReadRef. by rewrite decide_True. }
  rewrite decide_True by done. io_unfold. simpl.
  rewrite Hacc. simpl. rewrite Hd. done.
Qed.

Lemma markRewarded_idemp (d : mission) : markRewarded (markRewarded d) = markRewarded d.
Proof. done. Qed.

Lemma toReward_markRewarded (missionId : string) (d : mission) :
  toReward (missionId, markRewarded d) = false.
Proof. unfold toReward. simpl. apply andb_false_r. Qed.

Lemma sumZ_cons (x : Z) (l : list Z) : sumZ (x :: l) = x + sumZ l.
Proof. done. Qed.

Lemma forOf_cons {A} (x : A) (l : list A) (body : A → io unit) (w : world) :
  forOf (x :: l) body w =
    match body x w with
    | (Ok _, w') => forOf l body w'
    | (Throw e, w') => (Throw e, w')
    end.
Proof. done. Qed.

(** The loop over the missions to reward, when the store accepts every
    request, the private profile exists and each mission of the list is in
    the store. *)
Lemma forOf_rewardMission (q : list missionSnap) :
  ∀ (w : world) (cur : profile),
    accepting w →
    privateProfiles w !! userId = Some cur →
    (∀ m, m ∈ q → is_Some (missions w !! m.1)) →
    ∃ w' p',
      forOf q (rewardMission userId) w = (Ok tt, w') ∧
      accepting w' ∧
      privateProfiles w' !! userId = Some p' ∧
      default 0 (xp p') = default 0 (xp cur) + sumZ ((λ m, default 0 (rewardXp m.2)) <$> q) ∧
      default 0 (gold p') = default 0 (gold cur) + sumZ ((λ m, default 0 (rewardGold m.2)) <$> q) ∧
      (∀ skill,
         default 0 (default ∅ (skills p') !! skill) =
           default 0 (default ∅ (skills cur) !! skill)
           + sumZ ((λ m, default 0 (skillUpdatesOf (missionType m.2) !! skill)) <$> q)) ∧
      (∀ id, missions w' !! id =
               if decide (id ∈ q.*1) then markRewarded <$> missions w !! id
               else missions w !! id).
Proof.
  induction q as [|[missionId m] q IH]; intros w cur Hacc Hcur Hstore.
  - exists w, cur. simpl. split_and!; try done; lia.
  - destruct (Hstore (missionId, m)) as [d Hd]; [left|]. simpl in Hd.
    pose proof (rewardMission_run w missionId m d cur Hacc Hcur Hd) as Hrun.
    cbv zeta in Hrun.
    set (w1 := tick (set_missions _ _)) in Hrun.
    set (cur1 := mergeProfile (S (clock w)) (updatedProfile cur (missionUpdates m)) cur).
    destruct (IH w1 cur1) as (w' & p' & Hfor & Hacc' & Hp' & Hxp & Hgold & Hskills & Hmissions).
    { done. }
    { subst w1. simpl. by rewrite lookup_insert_eq. }
    { intros m' Hm'. subst w1. simpl.
      destruct (decide (missionId = m'.1)) as [<-|Hne].
      - rewrite lookup_insert_eq. eauto.
      - rewrite lookup_insert_ne by done. apply Hstore. by right. }
    exists w', p'. split_and!; try done.
    + rewrite forOf_cons, Hrun. exact Hfor.
    + rewrite Hxp, fmap_cons, sumZ_cons. cbn [snd].
      replace (default 0 (xp cur1)) with (default 0 (xp cur) + default 0 (rewardXp m));
        [lia|]. subst cur1. simpl. by rewrite !or_num_0.
    + rewrite Hgold, fmap_cons, sumZ_cons. cbn [snd].
      replace (default 0 (gold cur1))
        with (default 0 (gold cur) + default 0 (rewardGold m));
        [lia|]. subst cur1. simpl. by rewrite !or_num_0.
    + intros skill. rewrite Hskills, fmap_cons, sumZ_cons. cbn [snd].
      replace (default 0 (default ∅ (skills cur1) !! skill))
        with (default 0 (default ∅ (skills cur) !! skill)
              + default 0 (skillUpdatesOf (missionType m) !! skill));
        [lia|]. subst cur1.
      rewrite mergeProfile_updated_self. simpl.
      rewrite newSkillsOf_lookup. simpl.
      destruct (skillUpdatesOf (missionType m) !! skill); simpl; lia.
    + intros id. rewrite Hmissions, fmap_cons. cbn [fst]. subst w1.
      cbn [missions tick set_missions].
      destruct (decide (id = missionId)) as [->|Hne].
      * rewrite lookup_insert_eq, Hd. simpl.
        rewrite (decide_True (P := missionId ∈ missionId :: q.*1)) by left.
        by destruct (decide _).
      * rewrite lookup_insert_ne by done.
        destruct (decide (id ∈ q.*1)) as [Hin|Hnin].
        -- rewrite decide_True; [done|by right].
        -- rewrite decide_False; [done|]. rewrite elem_of_cons. by intros [?|?].
Qed.

(** The settlement is the loop over the missions selected. *)
Lemma processRewards_loop (dailyMissions : list missionSnap) (w : world) :
  processRewards userId dailyMissions w =
    forOf (List.filter toReward dailyMissions) (rewardMission userId) w.
Proof.
  unfold processRewards. case_decide as Hlen; [|done].
  by destruct (List.filter toReward dailyMissions).
Qed.

(** One mission of the loop when the store serves the profile documents
    and the private profile exists: the reward is applied whatever becomes
    of the write of the flag. *)
Lemma rewardMission_profile (w : world) (missionId : string) (m : mission)
    (cur : profile) :
  (∀ r, rejects w (profileDoc r) = false) →
  privateProfiles w !! userId = Some cur →
  ∃ w1,
    rewardMission userId (missionId, m) w = (Ok tt, w1) ∧
    rejects w1 = rejects w ∧
    privateProfiles w1 !! userId =
      Some (mergeProfile (S (clock w)) (updatedProfile cur (missionUpdates m)) cur) ∧
    ∀ id, missions w1 !! id =
            if decide (id = missionId ∧ rejects w (missionDoc id) = false)
            then markRewarded <$> missions w !! id
            else missions w !! id.
Proof.
  intros Hacc Hcur. unfold rewardMission.
  unfold try_catch at 1. unfold mbind at 1, io_bind at 1, bind at 1.
  rewrite (updateStudentProfile_run w userId userId _ cur); [|done|done|].
  2: { unfold docToReadRef. by rewrite decide_True. }
  rewrite decide_True by done. io_unfold. simpl.
  destruct (rejects w (missionDoc missionId)) eqn:Hrej; simpl.
  { eexists. split; [done|]. simpl. rewrite lookup_insert_eq. split_and!; try done.
    intros id. case_decide as Hd; [|done]. destruct Hd as [-> Hd]. congruence. }
  destruct (missions w !! missionId) as [d|] eqn:Hd; simpl.
  - eexists. split; [done|]. simpl. rewrite lookup_insert_eq. split_and!; try done.
    intros id. destruct (decide (id = missionId)) as [->|Hne].
    + rewrite lookup_insert_eq, decide_True by done. by rewrite Hd.
    + rewrite lookup_insert_ne by done. rewrite decide_False; [done|]. by intros [? _].
  - eexists. split; [done|]. simpl. rewrite lookup_insert_eq. split_and!; try done.
    intros id. case_decide as Hid; [|done]. destruct Hid as [-> _]. by rewrite Hd.
Qed.

(** The loop when the store serves the profile documents and the private
    profile exists: every reward is applied, and the flag is set on the
    missions whose document the store serves. *)
Lemma forOf_rewardMission_profile (q : list missionSnap) :
  ∀ (w : world) (cur : profile),
    (∀ r, rejects w (profileDoc r) = false) →
    privateProfiles w !! userId = Some cur →
    ∃ w' p',
      forOf q (rewardMission userId) w = (Ok tt, w') ∧
      privateProfiles w' !! userId = Some p' ∧
      default 0 (xp p') = default 0 (xp cur) + sumZ ((λ m, default 0 (rewardXp m.2)) <$> q) ∧
      default 0 (gold p') = default 0 (gold cur) + sumZ ((λ m, default 0 (rewardGold m.2)) <$> q) ∧
      (∀ skill,
         default 0 (default ∅ (skills p') !! skill) =
           default 0 (default ∅ (skills cur) !! skill)
           + sumZ ((λ m, default 0 (skillUpdatesOf (missionType m.2) !! skill)) <$> q)) ∧
      (∀ id, missions w' !! id =
               if decide (id ∈ q.*1 ∧ rejects w (missionDoc id) = false)
               then markRewarded <$> missions w !! id
               else missions w !! id).
Proof.
  induction q as [|[missionId m] q IH]; intros w cur Hacc Hcur.
  - exists w, cur. simpl. split_and!; try done; lia.
  - destruct (rewardMission_profile w missionId m cur Hacc Hcur)
      as (w1 & Hrun & Hrej & Hcur1 & Hm1).
    destruct (rewarded_gain (S (clock w)) cur m) as (Hxp1 & Hgold1 & Hskills1).
    set (cur1 := mergeProfile (S (clock w)) (updatedProfile cur (missionUpdates m)) cur) in *.
    destruct (IH w1 cur1) as (w' & p' & Hfor & Hp' & Hxp & Hgold & Hskills & Hmissions).
    { intros r. rewrite Hrej. apply Hacc. }
    { done. }
    exists w', p'. split_and!; try done.
    + rewrite forOf_cons, Hrun. exact Hfor.
    + rewrite Hxp, fmap_cons, sumZ_cons. cbn [snd]. lia.
    + rewrite Hgold, fmap_cons, sumZ_cons. cbn [snd]. lia.
    + intros skill. rewrite Hskills, fmap_cons, sumZ_cons. cbn [snd].
      rewrite Hskills1. lia.
    + rewrite fmap_cons. cbn [fst].
      apply (flagged_cons (λ id, rejects w (missionDoc id) = false)
               (missions w) (missions w1)); [done|].
      intros id. rewrite Hmissions. by rewrite Hrej.
Qed.

(** A mission the snapshot shows as rewarded, or as not completed, is not
    selected. *)
Lemma filter_toReward_nil (l : list missionSnap) :
  (∀ m, m ∈ l → toReward m = false) → List.filter toReward l = [].
Proof.
  induction l as [|m l IH]; intros Hl; [done|]. simpl.
  rewrite (Hl m) by left. apply IH. intros m' Hm'. apply Hl. by right.
Qed.

(** C1. When the store accepts every request, the private profile of the
    student exists and the snapshot [dailyMissions] shows the missions as
    they are stored:
    - the missions settled are exactly those of the snapshot with
      [isCompleted] true and [isStudentRewarded] not true (false, or
      missing): afterwards each of them is stored with [isStudentRewarded]
      true, and no other mission of the store has changed;
    - the profile has gained the [rewardXp] and the [rewardGold] of each of
      them, and for each of them the skill reward of its category:
      5 for responsibility, 10 for literacy when the category is 읽기 or
      쓰기, 10 for numeracy when it is 수리 or 문제풀이;
    - a second invocation on the same missions as they are stored now
      selects none of them and changes nothing: over the two invocations
      each reward is applied once;
    - the reward comes before the flag: had the store refused the writes
      to the mission documents, the same rewards would have been applied
      and no mission would have changed. *)
Theorem processRewards_settles_once (w : world) (dailyMissions : list missionSnap)
    (cur : profile) :
  accepting w →
  privateProfiles w !! userId = Some cur →
  (∀ m, m ∈ dailyMissions → missions w !! m.1 = Some m.2) →
  let settled :=
    filter (λ m : missionSnap,
              isCompleted m.2 = Some true ∧ isStudentRewarded m.2 ≠ Some true)
           dailyMissions in
  ∃ w' p',
    processRewards userId dailyMissions w = (Ok tt, w') ∧
    (∀ m, m ∈ settled →
       ∃ d', missions w' !! m.1 = Some d' ∧ isStudentRewarded d' = Some true ∧
             studentId d' = studentId m.2 ∧ missionType d' = missionType m.2 ∧
             rewardXp d' = rewardXp m.2 ∧ rewardGold d' = rewardGold m.2 ∧
             isCompleted d' = Some true ∧ isPendingApproval d' = isPendingApproval m.2 ∧
             missionOthers d' = missionOthers m.2) ∧
    (∀ id, id ∉ settled.*1 → missions w' !! id = missions w !! id) ∧
    (∀ id, missions w' !! id =
             if decide (id ∈ settled.*1) then markRewarded <$> missions w !! id
             else missions w !! id) ∧
    privateProfiles w' !! userId = Some p' ∧
    default 0 (xp p') =
      default 0 (xp cur) + sumZ ((λ m, default 0 (rewardXp m.2)) <$> settled) ∧
    default 0 (gold p') =
      default 0 (gold cur) + sumZ ((λ m, default 0 (rewardGold m.2)) <$> settled) ∧
    (∀ skill,
       default 0 (default ∅ (skills p') !! skill) =
         default 0 (default ∅ (skills cur) !! skill)
         + sumZ ((λ m : missionSnap,
                    if decide (skill = responsibility) then 5
                    else if decide (skill = literacy ∧
                                    (missionType m.2 = "읽기" ∨ missionType m.2 = "쓰기"))
                    then 10
                    else if decide (skill = numeracy ∧
                                    (missionType m.2 = "수리" ∨ missionType m.2 = "문제풀이"))
                    then 10
                    else 0) <$> settled)) ∧
    processRewards userId (refresh w' dailyMissions) w' = (Ok tt, w') ∧
    ∃ w'' p'',
      processRewards userId dailyMissions (set_rejects refusesMissions w) = (Ok tt, w'') ∧
      missions w'' = missions w ∧
      privateProfiles w'' !! userId = Some p'' ∧
      default 0 (xp p'') = default 0 (xp p') ∧
      default 0 (gold p'') = default 0 (gold p') ∧
      ∀ skill, default 0 (default ∅ (skills p'') !! skill)
               = default 0 (default ∅ (skills p') !! skill).
Proof.
  intros Hacc Hcur Hsnap settled0. subst settled0.
  rewrite <- filter_toReward_fields.
  set (settled := List.filter toReward dailyMissions).
  assert (∀ m, m ∈ settled → m ∈ dailyMissions ∧ toReward m = true) as Hsub.
  { intros m Hm. apply list_elem_of_In in Hm. apply filter_In in Hm as [Hm ?].
    split; [by apply list_elem_of_In | done]. }
  destruct (forOf_rewardMission settled w cur Hacc Hcur) as
    (w' & p' & Hfor & Hacc' & Hp' & Hxp & Hgold & Hskills & Hmissions).
  { intros m Hm. rewrite (Hsnap m); [eauto | by apply Hsub]. }
  destruct (forOf_rewardMission_profile settled (set_rejects refusesMissions w) cur)
    as (w'' & p'' & Hfor2 & Hp'' & Hxp2 & Hgold2 & Hskills2 & Hmissions2).
  { done. }
  { done. }
  exists w', p'. split_and!; try done.
  - rewrite processRewards_loop. exact Hfor.
  - intros m Hm. destruct (Hsub m Hm) as [Hin Hdue].
    apply toReward_fields in Hdue as [Hcompleted _].
    exists (markRewarded m.2). rewrite Hmissions, (Hsnap m Hin).
    rewrite decide_True by (by apply list_elem_of_fmap_2). by split_and!.
  - intros id Hid. by rewrite Hmissions, decide_False.
  - intros skill. rewrite Hskills. do 2 f_equal. apply list_fmap_ext.
    intros _ m _. simpl. rewrite skillUpdatesOf_lookup. by repeat case_decide.
  - unfold processRewards. rewrite filter_toReward_nil; [done|].
    intros [id m]. unfold refresh. rewrite list_elem_of_omap.
    intros ([id0 m0] & Hin & Hm). simpl in Hm.
    pose proof (Hsnap _ Hin) as Hstored. simpl in Hstored.
    rewrite Hmissions, Hstored in Hm.
    case_decide as Hsettled; simplify_eq/=.
    + apply toReward_markRewarded.
    + apply not_true_is_false. intros Hrew. apply Hsettled.
      apply (list_elem_of_fmap_2 fst settled (id, m)).
      apply list_elem_of_In, filter_In. split; [by apply list_elem_of_In | done].
  - exists w'', p''. split_and!; try done.
    + rewrite processRewards_loop. exact Hfor2.
    + apply map_eq. intros id. rewrite Hmissions2. rewrite decide_False; [done|].
      by intros [_ ?].
    + lia.
    + lia.
    + intros skill. rewrite Hskills2, Hskills. done.
Qed.

End Settlement.

Lemma processRewards_settles_once_witness :
  ∃ w' p' d',
    processRewards "uid-1" [("m1", sampleMission)] sampleWorld = (Ok tt, w') ∧
    missions w' !! "m1" = Some d' ∧ isStudentRewarded d' = Some true ∧
    privateProfiles w' !! "uid-1" = Some p' ∧
    default 0 (xp p') = 95 + 10 ∧
    default 0 (gold p') = 40 + 5 ∧
    default 0 (default ∅ (skills p') !! literacy) = 30 + 10 ∧
    default 0 (default ∅ (skills p') !! responsibility) = 0 + 5 ∧
    default 0 (default ∅ (skills p') !! numeracy) = 0 ∧
    processRewards "uid-1" (refresh w' [("m1", sampleMission)]) w' = (Ok tt, w').
Proof.
  destruct (processRewards_settles_once "uid-1" sampleWorld [("m1", sampleMission)]
              sampleProfile)
    as (w' & p' & Hrun & Hflag & _ & _ & Hp' & Hxp & Hgold & Hskills & Hagain & _).
  - intros r. reflexivity.
  - reflexivity.
  - intros m Hm. apply list_elem_of_singleton in Hm. rewrite Hm. reflexivity.
  - destruct (Hflag ("m1", sampleMission)) as (d' & Hd' & Hrewarded & _).
    { left. }
    exists w', p', d'.
    split; [exact Hrun|]. split; [exact Hd'|]. split; [exact Hrewarded|].
    split; [exact Hp'|]. split; [exact Hxp|]. split; [exact Hgold|].
    split; [exact (Hskills literacy)|]. split; [exact (Hskills responsibility)|].
    split; [exact (Hskills numeracy) | exact Hagain].
Defined.

(** ** Routine completion toggle *)

Lemma routineUpdates_lookup (skill : string) :
  default 0 (upd_skills routineUpdates ≫= (.!! skill)) = routineReward skill.
Proof.
  unfold routineUpdates, routineReward. simpl.
  destruct (decide (skill = responsibility)) as [->|Hr].
  - by rewrite lookup_insert_eq.
  - rewrite lookup_insert_ne by done.
    destruct (decide (skill = self_direction)) as [->|Hs].
    + by rewrite lookup_singleton_eq.
    + by rewrite lookup_singleton_ne.
Qed.

Section Routine.

Variables (userId routineId todayDateString : string).

Lemma completedOn_setCompletedDay (b : bool) (d : routine) :
  completedOn todayDateString (setCompletedDay todayDateString b d) = b.
Proof. unfold completedOn, setCompletedDay. simpl. by rewrite lookup_insert_eq. Qed.

(** One call of the handler on a routine of the store, when the store
    accepts every request and the private profile exists. *)
Lemma handleToggle_run (w : world) (r d : routine) (cur : profile) (isNowChecked : bool) :
  accepting w →
  customRoutines w !! (userId, routineId) = Some d →
  privateProfiles w !! userId = Some cur →
  let w1 := tick (set_customRoutines
              <[(userId, routineId) := setCompletedDay todayDateString isNowChecked d]> w) in
  let updated := updatedProfile cur routineUpdates in
  let mirror := default emptyProfile (publicProfiles w !! userId) in
  handleToggleTodaysRoutineCompletion (Some userId) todayDateString (routineId, r)
      isNowChecked w =
    (Ok tt,
     if isNowChecked && negb (completedOn todayDateString r)
     then tick (set_privateProfiles <[userId := mergeProfile (S (S (clock w))) updated cur]>
            (tick (set_publicProfiles <[userId := mergeProfile (S (clock w)) updated mirror]>
               w1)))
     else w1).
Proof.
  intros Hacc Hd Hcur w1 updated mirror.
  unfold handleToggleTodaysRoutineCompletion. fold (completedOn todayDateString r).
  unfold try_catch at 1. unfold mbind at 1, io_bind at 1, bind at 1.
  assert (updateDoc_routine userId routineId
            (setCompletedDay todayDateString isNowChecked) w = (Ok tt, w1)) as ->.
  { io_unfold. rewrite Hacc. simpl. by rewrite Hd. }
  destruct (isNowChecked && negb (completedOn todayDateString r)); [|done].
  rewrite (updateStudentProfile_run w1 userId userId _ cur);
    [|apply Hacc|intros _; apply Hacc|].
  2: { unfold docToReadRef. by rewrite decide_True. }
  by rewrite decide_True.
Qed.

Lemma score_updated (cur : profile) (u : updates) (now : nat) (skill : string) :
  default 0 (default ∅ (skills (mergeProfile now (updatedProfile cur u) cur)) !! skill) =
    default 0 (default ∅ (skills cur) !! skill) + default 0 (upd_skills u ≫= (.!! skill)).
Proof.
  rewrite mergeProfile_updated_self. simpl. rewrite newSkillsOf_lookup.
  destruct (upd_skills u ≫= _); simpl; lia.
Qed.

(** One click, seen through the store and the scores of the profile. *)
Lemma toggle_step (w : world) (d : routine) (cur : profile) (isNowChecked : bool) :
  accepting w →
  customRoutines w !! (userId, routineId) = Some d →
  privateProfiles w !! userId = Some cur →
  ∃ w' d' cur',
    toggle userId routineId todayDateString isNowChecked w = (Ok tt, w') ∧
    accepting w' ∧
    customRoutines w' !! (userId, routineId) = Some d' ∧
    completedOn todayDateString d' = isNowChecked ∧
    privateProfiles w' !! userId = Some cur' ∧
    (∀ skill,
       score w' userId skill =
         score w userId skill
         + (if isNowChecked && negb (completedOn todayDateString d) then 1 else 0)
           * routineReward skill) ∧
    (isNowChecked && negb (completedOn todayDateString d) = false →
     privateProfiles w' = privateProfiles w ∧ publicProfiles w' = publicProfiles w).
Proof.
  intros Hacc Hd Hcur. unfold toggle. rewrite Hd.
  rewrite (handleToggle_run w d d cur isNowChecked Hacc Hd Hcur). cbv zeta.
  destruct (isNowChecked && negb (completedOn todayDateString d)).
  - do 3 eexists. split_and!; try done.
    + simpl. by rewrite lookup_insert_eq.
    + apply completedOn_setCompletedDay.
    + simpl. by rewrite lookup_insert_eq.
    + intros skill. unfold score. simpl. rewrite lookup_insert_eq, Hcur.
      rewrite score_updated, routineUpdates_lookup by done. lia.
  - do 3 eexists. split_and!; try done.
    + simpl. by rewrite lookup_insert_eq.
    + apply completedOn_setCompletedDay.
    + intros skill. unfold score. simpl. rewrite Hcur. lia.
Qed.

(** A sequence of clicks grants the reward once for each change from not
    completed to completed. *)
Lemma toggles_gain (clicks : list bool) :
  ∀ (w : world) (d : routine) (cur : profile),
    accepting w →
    customRoutines w !! (userId, routineId) = Some d →
    privateProfiles w !! userId = Some cur →
    ∃ w',
      forOf clicks (toggle userId routineId todayDateString) w = (Ok tt, w') ∧
      ∀ skill,
        score w' userId skill =
          score w userId skill
          + rises (completedOn todayDateString d) clicks * routineReward skill.
Proof.
  induction clicks as [|b clicks IH]; intros w d cur Hacc Hd Hcur.
  - exists w. split; [done|]. intros skill. simpl. lia.
  - destruct (toggle_step w d cur b Hacc Hd Hcur)
      as (w1 & d1 & cur1 & Hrun & Hacc1 & Hd1 & Hb & Hcur1 & Hscore & _).
    destruct (IH w1 d1 cur1 Hacc1 Hd1 Hcur1) as (w' & Hfor & Hscore').
    exists w'. split.
    + by rewrite forOf_cons, Hrun.
    + intros skill. rewrite Hscore', Hscore, Hb. cbn [rises]. lia.
Qed.

(** C6. When the store accepts every request and the routine and the
    private profile exist, a click that sets the date to completed while
    the routine shows it as not completed adds the fixed reward to the
    scores, 10 for self-direction and 5 for responsibility and nothing for
    any other skill; every other click (to not completed, or to completed
    when the date is completed already) leaves both copies of the profile
    as they are. In each case the date then shows the value of the click.
    Over any sequence of clicks the reward is granted once per change from
    not completed to completed, so twice over the changes
    false, true, false, true. *)
Theorem routine_toggle_rewards (w : world) (d : routine) (cur : profile) :
  accepting w →
  customRoutines w !! (userId, routineId) = Some d →
  privateProfiles w !! userId = Some cur →
  (∀ isNowChecked, ∃ w' d',
     toggle userId routineId todayDateString isNowChecked w = (Ok tt, w') ∧
     customRoutines w' !! (userId, routineId) = Some d' ∧
     completedOn todayDateString d' = isNowChecked ∧
     if isNowChecked && negb (completedOn todayDateString d)
     then ∀ skill, score w' userId skill = score w userId skill + routineReward skill
     else privateProfiles w' = privateProfiles w ∧ publicProfiles w' = publicProfiles w) ∧
  (∀ clicks, ∃ w',
     forOf clicks (toggle userId routineId todayDateString) w = (Ok tt, w') ∧
     ∀ skill,
       score w' userId skill =
         score w userId skill
         + rises (completedOn todayDateString d) clicks * routineReward skill) ∧
  (completedOn todayDateString d = false →
   ∃ w',
     forOf [true; false; true] (toggle userId routineId todayDateString) w = (Ok tt, w') ∧
     ∀ skill, score w' userId skill = score w userId skill + 2 * routineReward skill).
Proof.
  intros Hacc Hd Hcur. split_and!.
  - intros b.
    destruct (toggle_step w d cur b Hacc Hd Hcur)
      as (w1 & d1 & cur1 & Hrun & _ & Hd1 & Hb & _ & Hscore & Hsame).
    exists w1, d1. split_and!; try done.
    destruct (b && negb (completedOn todayDateString d)).
    + intros skill. rewrite Hscore. lia.
    + by apply Hsame.
  - intros clicks. by eapply toggles_gain.
  - intros Hwas.
    destruct (toggles_gain [true; false; true] w d cur Hacc Hd Hcur) as (w' & Hfor & Hscore).
    exists w'. split; [done|]. intros skill. rewrite Hscore, Hwas. done.
Qed.

End Routine.

Lemma routine_toggle_rewards_witness :
  ∃ w',
    forOf [true; false; true] (toggle "uid-1" "r1" "2025-03-04") sampleWorld = (Ok tt, w') ∧
    ∀ skill, score w' "uid-1" skill = score sampleWorld "uid-1" skill + 2 * routineReward skill.
Proof.
  destruct (routine_toggle_rewards "uid-1" "r1" "2025-03-04" sampleWorld sampleRoutine
              sampleProfile) as (_ & _ & Hseq).
  - intros r. reflexivity.
  - reflexivity.
  - reflexivity.
  - apply Hseq. reflexivity.
Defined.

(** ** Login *)

Example skill_names_distinct : NoDup sixSkills.
Proof. apply (bool_decide_unpack _). by vm_compute. Qed.

Lemma initialSkills_lookup (skill : string) :
  initialSkills !! skill = if decide (skill ∈ sixSkills) then Some 0 else None.
Proof.
  unfold initialSkills, sixSkills. case_decide as Hin.
  - repeat (apply elem_of_cons in Hin as [->|Hin]; [by vm_compute|]).
    by apply elem_of_nil in Hin.
  - rewrite !lookup_insert_ne, lookup_singleton_ne; [done|..];
      intros <-; apply Hin; repeat first [by left | right].
Qed.

Lemma mergeDict_initialSkills (stored : option (gmap string Z)) :
  mergeDict (Some initialSkills) stored = Some (initialSkills ∪ default ∅ stored).
Proof.
  unfold mergeDict. rewrite decide_False; [done|].
  intros Hempty. apply (f_equal (.!! literacy)) in Hempty.
  rewrite lookup_empty in Hempty. by vm_compute in Hempty.
Qed.

(** Writing the payload of [login] over any stored profile gives the
    initial values, whatever was stored. *)
Lemma mergeProfile_login_initialValues (now : nat) (data stored : profile) :
  xp data = Some 0 → gold data = Some 0 → level data = Some 1 →
  skills data = Some initialSkills →
  initialValues (mergeProfile now data stored).
Proof.
  intros Hxp Hgold Hlevel Hskills. unfold initialValues, mergeProfile. simpl.
  rewrite Hxp, Hgold, Hlevel, Hskills, mergeDict_initialSkills. split_and!; try done.
  intros skill Hin. simpl. rewrite lookup_union, initialSkills_lookup.
  rewrite decide_True by done. by destruct (default ∅ (skills stored) !! skill).
Qed.

(** What the write of [login] keeps of the stored profile. *)
Lemma mergeProfile_login_keeps (now : nat) (uid role inputID : string) (stored : profile) :
  let p' := mergeProfile now (userProfileData uid role inputID) stored in
  lastUpdate p' = lastUpdate stored ∧
  (∀ skill, skill ∉ sixSkills →
     default ∅ (skills p') !! skill = default ∅ (skills stored) !! skill) ∧
  (∀ field, field ∉ ["userId"; "role"; "displayName"] →
     others p' !! field = others stored !! field).
Proof.
  unfold mergeProfile. cbn [lastUpdate skills others userProfileData].
  rewrite mergeDict_initialSkills. split_and!; [done|..].
  - intros skill Hnot. simpl.
    rewrite lookup_union, initialSkills_lookup, decide_False by done.
    by destruct (default ∅ (skills stored) !! skill).
  - intros field Hnot. rewrite lookup_union.
    rewrite !lookup_insert_ne, lookup_singleton_ne;
      [by destruct (others stored !! field)|..];
      intros <-; apply Hnot; repeat first [by left | right].
Qed.

Local Arguments mergeProfile : simpl never.

Section Login.

Variables (w : world) (inputID inputPassword uid : string).

(** C10. When the session is established, the store accepts the writes and
    the credentials match an account table, [login] succeeds and afterwards
    the private profile of the session shows XP 0, gold 0, level 1 and the
    score 0 for each of the six skills, whatever it held before; for a
    student the public mirror shows the same; for a teacher no mirror is
    written. What the merge keeps of the stored private profile are the
    fields and skill keys the payload does not have. *)
Theorem login_resets_progress :
  currentUser w = Some uid →
  accepting w →
  studentAccounts w !! inputID = Some inputPassword
    ∨ teacherAccounts w !! inputID = Some inputPassword →
  let role := roleOf w inputID inputPassword in
  let stored := default emptyProfile (privateProfiles w !! uid) in
  ∃ w' p',
    login inputID inputPassword w = (Ok (LoginOk role), w') ∧
    privateProfiles w' !! uid = Some p' ∧
    initialValues p' ∧
    lastUpdate p' = lastUpdate stored ∧
    (∀ skill, skill ∉ sixSkills →
       default ∅ (skills p') !! skill = default ∅ (skills stored) !! skill) ∧
    (∀ field, field ∉ ["userId"; "role"; "displayName"] →
       others p' !! field = others stored !! field) ∧
    (role = "student" →
       ∃ m', publicProfiles w' !! uid = Some m' ∧ initialValues m') ∧
    (role ≠ "student" → publicProfiles w' = publicProfiles w).
Proof.
  intros Huser Hacc Hmatch role stored. subst role stored. unfold roleOf.
  unfold login. io_unfold. rewrite Huser. simpl.
  destruct (decide (studentAccounts w !! inputID = Some inputPassword)) as [Hs|Hs]; simpl.
  - repeat (rewrite Hacc; simpl).
    do 2 eexists. split; [done|]. simpl. rewrite lookup_insert_eq.
    destruct (mergeProfile_login_keeps (clock w) uid "student" inputID
                (default emptyProfile (privateProfiles w !! uid))) as (? & ? & ?).
    split_and!; try done.
    + by apply mergeProfile_login_initialValues.
    + intros _. eexists. rewrite lookup_insert_eq. split; [done|].
      by apply mergeProfile_login_initialValues.
  - destruct Hmatch as [?|Ht]; [done|].
    rewrite decide_True by done. simpl. repeat (rewrite Hacc; simpl).
    do 2 eexists. split; [done|]. simpl. rewrite lookup_insert_eq.
    destruct (mergeProfile_login_keeps (clock w) uid "teacher" inputID
                (default emptyProfile (privateProfiles w !! uid))) as (? & ? & ?).
    split_and!; try done.
    by apply mergeProfile_login_initialValues.
Qed.

End Login.

Lemma login_resets_progress_witness :
  ∃ w' p',
    login "김대수" "1024" sampleWorld = (Ok (LoginOk "student"), w') ∧
    privateProfiles w' !! "uid-1" = Some p' ∧
    initialValues p'.
Proof.
  destruct (login_resets_progress sampleWorld "김대수" "1024" "uid-1")
    as (w' & p' & Hrun & Hp' & Hinit & _).
  - reflexivity.
  - intros r. reflexivity.
  - left. reflexivity.
  - exists w', p'. split; [exact Hrun|]. split; [exact Hp' | exact Hinit].
Defined.

(** ** The retrying remote call *)

Module GeminiFacts.
Import Gemini.

(** One turn of the [for] loop. *)
Lemma attempts_step (fetch : nat → fetched) (retries i : nat) (delay : Z) :
  attempts fetch retries i delay =
    if decide (i < retries)%nat then
      match tryBlock (fetch i) with
      | (evs, inr t) => (Fetch :: evs, Ok (Some t))
      | (evs, inl e) =>
          if decide (i < retries - 1)%nat then
            let '(tr, r) := attempts fetch retries (S i) (delay * 2) in
            (Fetch :: evs ++ ConsoleError (attemptLine i e) :: Sleep delay :: tr, r)
          else (Fetch :: evs ++ [ConsoleError (attemptLine i e)], Throw e)
      end
    else ([], Ok None).
Proof.
  rewrite (attempts_equation_1 fetch retries i delay).
  destruct (decide (i < retries)%nat); [|done]. simpl.
  destruct (tryBlock (fetch i)) as [evs [e|t]]; [|done]. simpl.
  by destruct (decide (i < retries - 1)%nat).
Qed.

Lemma schedule_tryBlock (f : fetched) : schedule (tryBlock f).1 = [].
Proof.
  unfold tryBlock. repeat case_match; done.
Qed.

Lemma schedule_app (tr1 tr2 : list event) :
  schedule (tr1 ++ tr2) = (schedule tr1 ++ schedule tr2)%list.
Proof. apply List.filter_app. Qed.

Lemma attempt_wellShaped (f : fetched) (t : string) :
  attempt f = inr t ↔ wellShaped f t.
Proof.
  unfold attempt, wellShaped, tryBlock. split.
  - intros H. repeat case_match; simplify_eq/=.
    do 2 eexists. split_and!; try done. by intros ->.
  - intros (response & result & -> & -> & -> & Ht & Hne). rewrite Ht.
    by destruct t.
Qed.

(** One turn of the loop, seen through the result and the schedule. *)
Lemma attempts_turn (fetch : nat → fetched) (retries i : nat) (delay : Z) :
  (i < retries)%nat →
  let next := attempts fetch retries (S i) (delay * 2) in
  (attempts fetch retries i delay).2 =
    match attempt (fetch i) with
    | inr t => Ok (Some t)
    | inl e => if decide (i < retries - 1)%nat then next.2 else Throw e
    end ∧
  schedule (attempts fetch retries i delay).1 =
    match attempt (fetch i) with
    | inr t => [Fetch]
    | inl _ =>
        if decide (i < retries - 1)%nat then Fetch :: Sleep delay :: schedule next.1
        else [Fetch]
    end.
Proof.
  intros Hi next. subst next. rewrite attempts_step, decide_True by done.
  unfold attempt. pose proof (schedule_tryBlock (fetch i)) as Hevs.
  destruct (tryBlock (fetch i)) as [evs [e|t]]; simpl in *.
  - destruct (decide (i < retries - 1)%nat); simpl.
    + destruct (attempts fetch retries (S i) (delay * 2)) as [tr r]. simpl.
      by rewrite schedule_app, Hevs.
    + by rewrite schedule_app, Hevs.
  - by rewrite Hevs.
Qed.

(** The stub of the specification: two failures, then a response with a
    text. *)
Example fails_twice_then_succeeds :
  let success := Response true 200
      (inr (Body None (Some [Candidate (Some (Content (Some [Part (Some "hello")])))]))) in
  let fetch := λ i : nat, if decide (i < 2)%nat then inl "network" else inr success in
  let run := callGeminiAPIWithExponentialBackoff fetch in
  run.2 = Ok (Some "hello") ∧
  schedule run.1 = [Fetch; Sleep 1000; Fetch; Sleep 2000; Fetch].
Proof. by vm_compute. Qed.

(** A stub that always answers with an error status. *)
Example always_fails :
  let failure := Response false 503 (inr (Body (Some (ErrorObj (Some "overloaded"))) None)) in
  let run := callGeminiAPIWithExponentialBackoff (λ _, inr failure) in
  run.2 = Throw "API call failed: 503 - overloaded" ∧
  schedule run.1 = [Fetch; Sleep 1000; Fetch; Sleep 2000; Fetch].
Proof. by vm_compute. Qed.

(** The bodies in which the text is found. *)
Lemma textOf_shape (result : body) (t : string) :
  textOf result = Some t ↔
    ∃ bodyError0 ps cs,
      result = Body bodyError0
                 (Some (Candidate (Some (Content (Some (Part (Some t) :: ps)))) :: cs)).
Proof.
  split.
  - destruct result as [bodyError0 cands]. unfold textOf. simpl.
    destruct cands as [[|[ct] cs]|]; simpl; try done.
    destruct ct as [[pso]|]; simpl; try done.
    destruct pso as [[|[t0] ps]|]; simpl; try done.
    intros ->. eauto.
  - by intros (bodyError0 & ps & cs & ->).
Qed.

(** C5. Whatever the remote end does, the wrapper calls it at most three
    times: it returns the text of the first attempt that succeeds, with no
    wait before the first call, a wait of 1000 ms before the second and of
    2000 ms before the third, and when the three attempts fail it throws
    the error of the third, without a wait after it.

    An attempt succeeds exactly on a response with a success status whose
    body can be read and has a non-empty text at
    [candidates[0].content.parts[0].text], and it then gives that text: the
    responses are written out by their fields. Every other attempt fails:
    when the call itself is rejected (with its error), on a status that is
    not a success, on a body that cannot be read (with the error of the
    reading), and on a readable body of a success status that does not have
    the field, or has an empty text there (with the message of the invalid
    structure). *)
Theorem callGemini_retry_policy (fetch : nat → fetched) :
  let run := callGeminiAPIWithExponentialBackoff fetch in
  match attempt (fetch 0%nat), attempt (fetch 1%nat), attempt (fetch 2%nat) with
  | inr t, _, _ =>
      run.2 = Ok (Some t) ∧ schedule run.1 = [Fetch]
  | inl _, inr t, _ =>
      run.2 = Ok (Some t) ∧ schedule run.1 = [Fetch; Sleep 1000; Fetch]
  | inl _, inl _, inr t =>
      run.2 = Ok (Some t) ∧
      schedule run.1 = [Fetch; Sleep 1000; Fetch; Sleep 2000; Fetch]
  | inl _, inl _, inl e =>
      run.2 = Throw e ∧
      schedule run.1 = [Fetch; Sleep 1000; Fetch; Sleep 2000; Fetch]
  end ∧
  (∀ f t,
     attempt f = inr t ↔
       t ≠ "" ∧
       ∃ status0 bodyError0 ps cs,
         f = inr (Response true status0
                    (inr (Body bodyError0
                            (Some (Candidate (Some (Content (Some (Part (Some t) :: ps))))
                                     :: cs)))))) ∧
  (∀ f t, attempt f = inr t ↔ wellShaped f t) ∧
  (∀ e, attempt (inl e) = inl e) ∧
  (∀ response, ok response = false → ∃ e, attempt (inr response) = inl e) ∧
  (∀ response e, json response = inl e → attempt (inr response) = inl e) ∧
  (∀ response result,
     ok response = true → json response = inr result →
     (∀ t bodyError0 ps cs,
        result = Body bodyError0
                   (Some (Candidate (Some (Content (Some (Part (Some t) :: ps)))) :: cs)) →
        t = "") →
     attempt (inr response) = inl invalid_structure) ∧
  (∀ response result,
     ok response = true → json response = inr result → textOf result = None →
     attempt (inr response) = inl invalid_structure).
Proof.
  intros run. subst run. unfold callGeminiAPIWithExponentialBackoff.
  split_and!.
  - destruct (attempts_turn fetch 3 0 1000) as [-> ->]; [lia|].
    destruct (attempts_turn fetch 3 1 (1000 * 2)) as [-> ->]; [lia|].
    destruct (attempts_turn fetch 3 2 (1000 * 2 * 2)) as [-> ->]; [lia|].
    by destruct (attempt (fetch 0%nat)), (attempt (fetch 1%nat)), (attempt (fetch 2%nat)).
  - intros f t. rewrite attempt_wellShaped. unfold wellShaped. split.
    + intros ([ok0 status0 json0] & result & -> & Hok & Hjson & Htext & Hne).
      simpl in Hok, Hjson. subst ok0 json0.
      apply textOf_shape in Htext as (bodyError0 & ps & cs & ->).
      split; [done|]. by exists status0, bodyError0, ps, cs.
    + intros (Hne & status0 & bodyError0 & ps & cs & ->).
      do 2 eexists. by split_and!.
  - apply attempt_wellShaped.
  - done.
  - intros response Hok. unfold attempt, tryBlock. rewrite Hok.
    destruct (json response); eauto.
  - intros response e He. unfold attempt, tryBlock. rewrite He. by destruct (ok response).
  - intros response result Hok Hjson Hshape. unfold attempt, tryBlock.
    rewrite Hok, Hjson. destruct (textOf result) as [t|] eqn:Htext; [|done].
    apply textOf_shape in Htext as (bodyError0 & ps & cs & ->).
    by rewrite (Hshape t bodyError0 ps cs eq_refl).
  - intros response result Hok Hjson Htext. unfold attempt, tryBlock.
    by rewrite Hok, Hjson, Htext.
Qed.

End GeminiFacts.

(** * Further properties of the code *)

(** ** The progression computation *)

Section Progression.

Implicit Types (p : profile) (u : updates).

(** The loop in closed form. *)
Lemma levelUp_closed (newXP newLevel : Z) :
  levelUp newXP newLevel = Z.max newLevel (newXP / 100 + 1).
Proof.
  pose proof (Z.div_mod newXP 100 ltac:(lia)) as Hdiv.
  pose proof (Z.mod_pos_bound newXP 100 ltac:(lia)) as Hmod.
  apply levelUp_unique; [lia|lia|]. intros k Hk. lia.
Qed.

Lemma updatedProfile_level_max p u :
  level (updatedProfile p u) =
    Some (Z.max (Js.or_num (level p) 1)
                ((default 0 (xp p) + default 0 (upd_xp u)) / 100 + 1)).
Proof.
  unfold updatedProfile. simpl. by rewrite levelUp_closed, !or_num_0.
Qed.

(** X1. The new level in closed form: it is the larger of the level the
    update starts from ([level || 1]) and [newXP / 100 + 1], the division
    rounding down; so a profile below its level keeps the level, and a
    profile at or above it moves to the level of its XP. *)
Theorem updatedProfile_level_closed p u :
  let newXP := default 0 (xp p) + default 0 (upd_xp u) in
  let start := Js.or_num (level p) 1 in
  level (updatedProfile p u) = Some (Z.max start (newXP / 100 + 1)) ∧
  (newXP < start * 100 → level (updatedProfile p u) = Some start) ∧
  (start * 100 ≤ newXP → level (updatedProfile p u) = Some (newXP / 100 + 1)).
Proof.
  intros newXP start. rewrite updatedProfile_level_max. fold newXP start.
  pose proof (Z.div_mod newXP 100 ltac:(lia)) as Hdiv.
  pose proof (Z.mod_pos_bound newXP 100 ltac:(lia)) as Hmod.
  split_and!; [done|..]; intros H; f_equal; lia.
Qed.

Lemma updatedProfile_leveled p u :
  leveled p → 0 ≤ default 0 (upd_xp u) → leveled (updatedProfile p u).
Proof.
  intros (x & Hx & Hpos & Hl) Hu. exists (x + default 0 (upd_xp u)).
  rewrite updatedProfile_level_max. unfold updatedProfile. simpl.
  rewrite !or_num_0, Hx, Hl. simpl.
  pose proof (Z.div_le_mono x (x + default 0 (upd_xp u)) 100 ltac:(lia) ltac:(lia)).
  pose proof (Z.div_pos x 100 ltac:(lia) ltac:(lia)).
  split_and!; [done|lia|]. f_equal.
  destruct (decide (x / 100 + 1 = 0)); lia.
Qed.

Lemma mergeProfile_leveled (now : nat) (data stored : profile) :
  leveled data → leveled (mergeProfile now data stored).
Proof.
  intros (x & Hx & Hpos & Hl). exists x. unfold mergeProfile. simpl.
  by rewrite Hx, Hl.
Qed.

Lemma profile_eq (p q : profile) :
  xp p = xp q → gold p = gold q → level p = level q → skills p = skills q →
  lastUpdate p = lastUpdate q → others p = others q → p = q.
Proof. destruct p, q. simpl. by intros -> -> -> -> -> ->. Qed.

Lemma updatedProfile_xp p u :
  xp (updatedProfile p u) = Some (default 0 (xp p) + default 0 (upd_xp u)).
Proof. unfold updatedProfile. simpl. by rewrite !or_num_0. Qed.

Lemma updatedProfile_gold p u :
  gold (updatedProfile p u) = Some (default 0 (gold p) + default 0 (upd_gold u)).
Proof. unfold updatedProfile. simpl. by rewrite !or_num_0. Qed.

(** The level after two rewards with non-negative XP. *)
Lemma updatedProfile_level_twice p (ua ub : updates) :
  0 ≤ default 0 (xp p) → 0 ≤ default 0 (upd_xp ua) → 0 ≤ default 0 (upd_xp ub) →
  level (updatedProfile (updatedProfile p ua) ub) =
    Some (Z.max (Js.or_num (level p) 1)
            ((default 0 (xp p) + default 0 (upd_xp ua) + default 0 (upd_xp ub)) / 100 + 1)).
Proof.
  intros Hp Ha Hb.
  rewrite (updatedProfile_level_max (updatedProfile p ua) ub).
  rewrite updatedProfile_xp, updatedProfile_level_max. repeat change (default 0 (Some ?x)) with x.
  set (xa := default 0 (xp p) + default 0 (upd_xp ua)).
  set (l0 := Js.or_num (level p) 1).
  assert (0 ≤ xa) by (subst xa; lia). clearbody xa l0.
  pose proof (Z.div_pos xa 100 ltac:(lia) ltac:(lia)).
  pose proof (Z.div_le_mono xa (xa + default 0 (upd_xp ub)) 100 ltac:(lia) ltac:(lia)).
  f_equal. cbn [Js.or_num]. destruct (decide _); lia.
Qed.

(** X3. Two rewards with non-negative XP on a profile with non-negative XP
    give the same profile in either order. *)
Theorem updatedProfile_comm p (u1 u2 : updates) :
  0 ≤ default 0 (xp p) → 0 ≤ default 0 (upd_xp u1) → 0 ≤ default 0 (upd_xp u2) →
  updatedProfile (updatedProfile p u1) u2 = updatedProfile (updatedProfile p u2) u1.
Proof.
  intros Hp H1 H2. apply profile_eq.
  - rewrite !updatedProfile_xp. repeat change (default 0 (Some ?x)) with x. f_equal. lia.
  - rewrite !updatedProfile_gold. repeat change (default 0 (Some ?x)) with x. f_equal. lia.
  - rewrite !updatedProfile_level_twice by done. do 4 f_equal. lia.
  - cbn [skills updatedProfile]. f_equal. apply map_eq. intros k.
    rewrite !newSkillsOf_lookup. cbn [skills updatedProfile default]. unfold id.
    rewrite !newSkillsOf_lookup.
    destruct (upd_skills u1 ≫= _) as [a|], (upd_skills u2 ≫= _) as [b|],
      (default ∅ (skills p) !! k) as [v|]; simpl; try done; f_equal; lia.
  - done.
  - done.
Qed.

End Progression.

Lemma updatedProfile_comm_witness :
  let p := Profile (Some 95) (Some 7) (Some 1) (Some {[ literacy := 4 ]}) None ∅ in
  let u1 := Updates (Some 10) (Some 5) (Some {[ literacy := 5 ]}) in
  let u2 := Updates (Some 250) None (Some {[ numeracy := 10 ]}) in
  updatedProfile (updatedProfile p u1) u2 = updatedProfile (updatedProfile p u2) u1.
Proof.
  intros p u1 u2. apply (updatedProfile_comm p u1 u2); simpl; lia.
Defined.

(** ** [updateStudentProfile] and the store *)

Lemma sessionKept_refl (w : world) : sessionKept w w.
Proof. by repeat split. Qed.

Lemma sessionKept_trans (w1 w2 w3 : world) :
  sessionKept w1 w2 → sessionKept w2 w3 → sessionKept w1 w3.
Proof.
  intros (? & ? & ? & ? & ? & ?) (? & ? & ? & ? & ? & ?).
  repeat split; congruence.
Qed.

Lemma otherProfilesKept_refl (userId : string) (w : world) : otherProfilesKept userId w w.
Proof. by intros other _. Qed.

Lemma otherProfilesKept_trans (userId : string) (w1 w2 w3 : world) :
  otherProfilesKept userId w1 w2 → otherProfilesKept userId w2 w3 →
  otherProfilesKept userId w1 w3.
Proof.
  intros H12 H23 other Hne. destruct (H12 other Hne), (H23 other Hne).
  split; congruence.
Qed.

Section UpdateStudentProfileAnyStore.

Variables (w : world) (userIdToUpdate updaterId : string) (u : updates).

(** What a call can change, in any state of the store. *)
Lemma updateStudentProfile_effect :
  ∃ w', updateStudentProfile userIdToUpdate u updaterId w = (Ok tt, w') ∧
    sessionKept w w' ∧ otherProfilesKept userIdToUpdate w w' ∧
    missions w' = missions w ∧ customRoutines w' = customRoutines w ∧
    (userIdToUpdate ≠ updaterId → privateProfiles w' = privateProfiles w).
Proof.
  unfold updateStudentProfile, docToReadRef. io_unfold.
  destruct (decide (userIdToUpdate = updaterId)) as [Heq|Hne]; simpl;
    repeat (case_match; simplify_eq/=);
    (eexists; split; [done|]);
    (split_and!; [by repeat split| |done|done|done]);
    intros other Hother; simpl; by rewrite ?lookup_insert_ne.
Qed.

(** X4. In every state of the store, whichever documents exist and
    whichever documents refuse the requests made to them, no error leaves
    [updateStudentProfile], and a call never changes a mission, a routine,
    the account tables, the session, or a profile document of another user;
    when the updating actor is not the owner it changes no private profile
    at all, and when the source document does not exist or is refused it
    writes no profile: a profile is never made from nothing.

    A store that serves the read of a document and refuses a later write
    to the same document is not covered. *)
Theorem updateStudentProfile_contained :
  ∃ w', updateStudentProfile userIdToUpdate u updaterId w = (Ok tt, w') ∧
    sessionKept w w' ∧ otherProfilesKept userIdToUpdate w w' ∧
    missions w' = missions w ∧ customRoutines w' = customRoutines w ∧
    (userIdToUpdate ≠ updaterId → privateProfiles w' = privateProfiles w) ∧
    (profileAt (docToReadRef userIdToUpdate updaterId) w = None
       ∨ rejects w (profileDoc (docToReadRef userIdToUpdate updaterId)) = true →
     privateProfiles w' = privateProfiles w ∧ publicProfiles w' = publicProfiles w).
Proof.
  destruct updateStudentProfile_effect as (w' & Hrun & Hs & Ho & Hm & Hr & Hp).
  exists w'. split_and!; try done.
  intros Hsource. revert Hrun. unfold updateStudentProfile. io_unfold.
  destruct (rejects w (profileDoc (docToReadRef userIdToUpdate updaterId))) eqn:Hrej;
    simpl.
  - by intros [= <-].
  - destruct Hsource as [Hnone|?]; [|done]. rewrite Hnone. by intros [= <-].
Qed.

(** X2. The invariant of the level: when the store accepts the writes, the
    profile read shows the level of its XP ([xp / 100 + 1], XP not
    negative) and the reward has no negative XP, the documents written show
    the level of their XP again. The profile [login] writes has it. *)
Theorem updateStudentProfile_keeps_leveled (currentData : profile) :
  accepting w →
  profileAt (docToReadRef userIdToUpdate updaterId) w = Some currentData →
  leveled currentData →
  0 ≤ default 0 (upd_xp u) →
  (∀ uid role inputID, leveled (userProfileData uid role inputID)) ∧
  ∃ w' mirror',
    updateStudentProfile userIdToUpdate u updaterId w = (Ok tt, w') ∧
    publicProfiles w' !! userIdToUpdate = Some mirror' ∧ leveled mirror' ∧
    (userIdToUpdate = updaterId →
       ∃ p', privateProfiles w' !! userIdToUpdate = Some p' ∧ leveled p').
Proof.
  intros Hacc Hcur Hlev Hu. split.
  { intros uid role inputID. exists 0. by split_and!. }
  rewrite (updateStudentProfile_run w userIdToUpdate updaterId u currentData);
    [|apply Hacc|intros _; apply Hacc|done].
  pose proof (updatedProfile_leveled currentData u Hlev Hu) as Hupd.
  destruct (decide (userIdToUpdate = updaterId)) as [Heq|Hne].
  - do 2 eexists. split; [done|]. simpl. rewrite !lookup_insert_eq.
    split_and!; [done|by apply mergeProfile_leveled|].
    intros _. eexists. split; [done|]. by apply mergeProfile_leveled.
  - do 2 eexists. split; [done|]. simpl. rewrite !lookup_insert_eq.
    split_and!; [done|by apply mergeProfile_leveled|done].
Qed.

(** X5. When the owner updates and the store refuses the write of the
    public mirror, the private copy is not written either: the call returns
    normally and leaves one line on the console. *)
Theorem updateStudentProfile_mirror_refused (currentData : profile) :
  userIdToUpdate = updaterId →
  rejects w (profileDoc (userProfile userIdToUpdate)) = false →
  rejects w (profileDoc (publicStudentProfile userIdToUpdate)) = true →
  privateProfiles w !! userIdToUpdate = Some currentData →
  updateStudentProfile userIdToUpdate u updaterId w =
    (Ok tt, log ("Error updating student profile: " ++ refused) w).
Proof.
  intros Heq Hpriv Hpub Hcur. unfold updateStudentProfile, docToReadRef. io_unfold.
  rewrite decide_True by done. simpl. rewrite Hpriv. simpl. rewrite Hcur. simpl.
  by rewrite Hpub.
Qed.

End UpdateStudentProfileAnyStore.

Lemma updateStudentProfile_keeps_leveled_witness :
  ∃ w' mirror',
    updateStudentProfile "uid-1" (Updates (Some 10) None None) "uid-1" sampleWorld
      = (Ok tt, w') ∧
    publicProfiles w' !! "uid-1" = Some mirror' ∧ leveled mirror'.
Proof.
  destruct (updateStudentProfile_keeps_leveled sampleWorld "uid-1" "uid-1"
              (Updates (Some 10) None None) sampleProfile)
    as (_ & w' & mirror' & Hrun & Hmirror & Hlev & _).
  - intros r. reflexivity.
  - reflexivity.
  - exists 95. split; [reflexivity|]. split; [lia | reflexivity].
  - simpl. lia.
  - exists w', mirror'. split; [exact Hrun|]. split; [exact Hmirror | exact Hlev].
Defined.

Lemma updateStudentProfile_mirror_refused_witness :
  updateStudentProfile "uid-1" (Updates (Some 10) None None) "uid-1"
      (set_rejects refusesMirrors sampleWorld) =
    (Ok tt, log ("Error updating student profile: " ++ refused)
              (set_rejects refusesMirrors sampleWorld)).
Proof.
  apply (updateStudentProfile_mirror_refused (set_rejects refusesMirrors sampleWorld)
           "uid-1" "uid-1" (Updates (Some 10) None None) sampleProfile);
    reflexivity.
Defined.

(** ** Mission reward settlement in every state of the store *)

Lemma flagsOnly_refl (ids : list string) (w : world) : flagsOnly ids w w.
Proof. intros id. by left. Qed.

Lemma flagsOnly_cons (id0 : string) (ids : list string) (w1 w2 w3 : world) :
  flagsOnly [id0] w1 w2 → flagsOnly ids w2 w3 → flagsOnly (id0 :: ids) w1 w3.
Proof.
  intros H12 H23 id.
  destruct (H12 id) as [E12|(Hin1 & d & Hd & Hd')],
           (H23 id) as [E23|(Hin2 & d2 & Hd2 & Hd2')].
  - left. congruence.
  - right. split; [by right|]. exists d2. split; congruence.
  - right. apply list_elem_of_singleton in Hin1 as ->.
    split; [by left|]. exists d. split; congruence.
  - right. apply list_elem_of_singleton in Hin1 as ->.
    split; [by left|]. exists d. split; [done|].
    rewrite Hd2'. f_equal. assert (d2 = markRewarded d) as -> by congruence. done.
Qed.

Section SettlementAnyStore.

Variable userId : string.

(** One mission of the loop, in every state of the store. *)
Lemma rewardMission_effect (w : world) (m : missionSnap) :
  ∃ w', rewardMission userId m w = (Ok tt, w') ∧
    sessionKept w w' ∧ otherProfilesKept userId w w' ∧
    customRoutines w' = customRoutines w ∧ flagsOnly [m.1] w w'.
Proof.
  destruct m as [missionId m]. unfold rewardMission.
  unfold try_catch at 1. unfold mbind at 1, io_bind at 1, bind at 1.
  destruct (updateStudentProfile_effect w userId userId (missionUpdates m))
    as (w1 & -> & Hsession & Hothers & Hmissions & Hroutines & _).
  destruct Hsession as (? & ? & ? & ? & ? & ?).
  io_unfold. simpl.
  destruct (rejects w1 (missionDoc missionId)); simpl.
  { eexists. split; [done|]. split_and!.
    - unfold sessionKept. simpl. by split_and!.
    - intros other Hne. simpl. by apply Hothers.
    - done.
    - intros id. left. simpl. congruence. }
  destruct (missions w1 !! missionId) as [d|] eqn:Hd; simpl.
  - eexists. split; [done|]. split_and!.
    + unfold sessionKept. simpl. by split_and!.
    + intros other Hne. simpl. by apply Hothers.
    + done.
    + intros id. simpl. destruct (decide (id = missionId)) as [->|Hne].
      * right. split; [by left|]. exists d. rewrite lookup_insert_eq. split; congruence.
      * left. rewrite lookup_insert_ne by done. congruence.
  - eexists. split; [done|]. split_and!.
    + unfold sessionKept. simpl. by split_and!.
    + intros other Hne. simpl. by apply Hothers.
    + done.
    + intros id. left. simpl. congruence.
Qed.

Lemma forOf_rewardMission_effect (q : list missionSnap) :
  ∀ w, ∃ w', forOf q (rewardMission userId) w = (Ok tt, w') ∧
    sessionKept w w' ∧ otherProfilesKept userId w w' ∧
    customRoutines w' = customRoutines w ∧ flagsOnly q.*1 w w'.
Proof.
  induction q as [|m q IH]; intros w.
  - exists w. split; [done|].
    split_and!; [apply sessionKept_refl|apply otherProfilesKept_refl|done|apply flagsOnly_refl].
  - destruct (rewardMission_effect w m) as (w1 & Hrun & Hs1 & Ho1 & Hr1 & Hf1).
    destruct (IH w1) as (w' & Hfor & Hs & Ho & Hr & Hf).
    exists w'. rewrite forOf_cons, Hrun. split; [done|]. split_and!.
    + by eapply sessionKept_trans.
    + by eapply otherProfilesKept_trans.
    + congruence.
    + rewrite fmap_cons. by eapply flagsOnly_cons.
Qed.

(** The flag after one mission of the loop, in every state of the store:
    it is set when the mission document exists and the store serves it. *)
Lemma rewardMission_missions (w : world) (m : missionSnap) :
  ∃ w', rewardMission userId m w = (Ok tt, w') ∧
    rejects w' = rejects w ∧
    ∀ id, missions w' !! id =
            if decide (id = m.1 ∧ rejects w (missionDoc id) = false)
            then markRewarded <$> missions w !! id
            else missions w !! id.
Proof.
  destruct m as [missionId m]. unfold rewardMission.
  unfold try_catch at 1. unfold mbind at 1, io_bind at 1, bind at 1.
  destruct (updateStudentProfile_effect w userId userId (missionUpdates m))
    as (w1 & -> & Hsession & _ & Hmissions & _).
  destruct Hsession as (_ & _ & _ & _ & _ & Hrej).
  io_unfold. simpl. rewrite <- Hrej, <- Hmissions.
  destruct (rejects w1 (missionDoc missionId)) eqn:Hserved; simpl.
  { eexists. split; [done|]. split; [done|]. intros id.
    case_decide as Hd; [|done]. destruct Hd as [-> Hd]. congruence. }
  destruct (missions w1 !! missionId) as [d|] eqn:Hd; simpl.
  - eexists. split; [done|]. split; [done|]. intros id.
    cbn [missions tick set_missions].
    destruct (decide (id = missionId)) as [->|Hne].
    + rewrite lookup_insert_eq, decide_True by done. by rewrite Hd.
    + rewrite lookup_insert_ne by done.
      rewrite decide_False; [done|]. by intros [? _].
  - eexists. split; [done|]. split; [done|]. intros id.
    case_decide as Hid; [|done]. destruct Hid as [-> _]. by rewrite Hd.
Qed.

Lemma forOf_rewardMission_missions (q : list missionSnap) :
  ∀ w, ∃ w', forOf q (rewardMission userId) w = (Ok tt, w') ∧
    ∀ id, missions w' !! id =
            if decide (id ∈ q.*1 ∧ rejects w (missionDoc id) = false)
            then markRewarded <$> missions w !! id
            else missions w !! id.
Proof.
  induction q as [|m q IH]; intros w.
  - exists w. by split.
  - destruct (rewardMission_missions w m) as (w1 & Hrun & Hrej & Hm1).
    destruct (IH w1) as (w' & Hfor & Hmissions).
    exists w'. rewrite forOf_cons, Hrun. split; [done|].
    rewrite fmap_cons.
    apply (flagged_cons (λ id, rejects w (missionDoc id) = false)
             (missions w) (missions w1)); [done|].
    intros id. rewrite Hmissions. by rewrite Hrej.
Qed.

(** X6. In every state of the store, whichever documents exist and
    whichever documents refuse the requests made to them, and whatever the
    snapshot shows, no error leaves [processRewards], and a failure on one
    mission does not stop the loop: every mission the snapshot shows with
    [isCompleted] true and [isStudentRewarded] not true whose document
    exists and is served ends with [isStudentRewarded] true, whatever
    became of the other missions and of the profile; the missions after the
    run are given for every identifier. A run creates or deletes no
    mission, changes of a mission nothing but that flag, and that only on
    the missions selected; it changes no routine, no profile of another
    user, and nothing of the session or the account tables.

    A store that serves a document at one request and refuses it at a later
    one during the run is not covered. *)
Theorem processRewards_contained (w : world) (dailyMissions : list missionSnap) :
  let settled :=
    filter (λ m : missionSnap,
              isCompleted m.2 = Some true ∧ isStudentRewarded m.2 ≠ Some true)
           dailyMissions in
  ∃ w', processRewards userId dailyMissions w = (Ok tt, w') ∧
    sessionKept w w' ∧ otherProfilesKept userId w w' ∧
    customRoutines w' = customRoutines w ∧
    flagsOnly settled.*1 w w' ∧
    (∀ m d, m ∈ settled → missions w !! m.1 = Some d →
       rejects w (missionDoc m.1) = false →
       ∃ d', missions w' !! m.1 = Some d' ∧ isStudentRewarded d' = Some true ∧
             studentId d' = studentId d ∧ missionType d' = missionType d ∧
             rewardXp d' = rewardXp d ∧ rewardGold d' = rewardGold d ∧
             isCompleted d' = isCompleted d ∧
             isPendingApproval d' = isPendingApproval d ∧
             missionOthers d' = missionOthers d) ∧
    (∀ id, missions w' !! id =
             if decide (id ∈ settled.*1 ∧ rejects w (missionDoc id) = false)
             then markRewarded <$> missions w !! id
             else missions w !! id).
Proof.
  intros settled0. subst settled0. rewrite <- filter_toReward_fields.
  set (settled := List.filter toReward dailyMissions).
  destruct (forOf_rewardMission_effect settled w) as (w' & Hfor & Hs & Ho & Hr & Hf).
  destruct (forOf_rewardMission_missions settled w) as (w2 & Hfor2 & Hmissions).
  assert (w2 = w') as -> by congruence.
  exists w'. rewrite processRewards_loop. split_and!; try done.
  intros m d Hm Hd Hserved. exists (markRewarded d).
  rewrite Hmissions, Hd. rewrite decide_True; [done|].
  split; [by apply list_elem_of_fmap_2 | done].
Qed.

(** The progression update of the owner when the private profile is
    missing. *)
Lemma updateStudentProfile_own_missing (w : world) (u : updates) :
  accepting w → privateProfiles w !! userId = None →
  updateStudentProfile userId u userId w = (Ok tt, log missing_source w).
Proof.
  intros Hacc Hnone. unfold updateStudentProfile, docToReadRef. io_unfold.
  rewrite decide_True by done. simpl. rewrite Hacc. simpl. by rewrite Hnone.
Qed.

Lemma forOf_rewardMission_no_profile (q : list missionSnap) :
  ∀ w, accepting w → privateProfiles w !! userId = None →
    (∀ m, m ∈ q → is_Some (missions w !! m.1)) →
    ∃ w', forOf q (rewardMission userId) w = (Ok tt, w') ∧
      privateProfiles w' = privateProfiles w ∧ publicProfiles w' = publicProfiles w ∧
      ∀ id, missions w' !! id =
              if decide (id ∈ q.*1) then markRewarded <$> missions w !! id
              else missions w !! id.
Proof.
  induction q as [|[missionId m] q IH]; intros w Hacc Hnone Hstore.
  - exists w. split_and!; try done.
  - destruct (Hstore (missionId, m)) as [d Hd]; [left|]. simpl in Hd.
    set (w1 := tick (set_missions <[missionId := markRewarded d]> (log missing_source w))).
    assert (rewardMission userId (missionId, m) w = (Ok tt, w1)) as Hrun.
    { unfold rewardMission. unfold try_catch at 1.
      unfold mbind at 1, io_bind at 1, bind at 1.
      rewrite updateStudentProfile_own_missing by done.
      io_unfold. simpl. rewrite Hacc. simpl. by rewrite Hd. }
    destruct (IH w1) as (w' & Hfor & Hpriv & Hpub & Hmissions).
    { done. }
    { done. }
    { intros m' Hm'. subst w1. simpl.
      destruct (decide (missionId = m'.1)) as [<-|Hne].
      - rewrite lookup_insert_eq. eauto.
      - rewrite lookup_insert_ne by done. apply Hstore. by right. }
    exists w'. rewrite forOf_cons, Hrun. split_and!; try done.
    intros id. rewrite Hmissions, fmap_cons. cbn [fst]. subst w1.
    cbn [missions tick set_missions log].
    destruct (decide (id = missionId)) as [->|Hne].
    + rewrite lookup_insert_eq, Hd. simpl.
      rewrite (decide_True (P := missionId ∈ missionId :: q.*1)) by left.
      by destruct (decide _).
    + rewrite lookup_insert_ne by done.
      destruct (decide (id ∈ q.*1)) as [Hin|Hnin].
      * rewrite decide_True; [done|by right].
      * rewrite decide_False; [done|]. rewrite elem_of_cons. by intros [?|?].
Qed.

(** X7. When the private profile of the student does not exist (the store
    accepting every request and the snapshot showing the missions as they
    are stored), the missions to reward are marked as rewarded although no
    profile document is written, and a second run on the missions as they
    are stored then changes nothing: the reward is not made up for. *)
Theorem processRewards_without_profile (w : world) (dailyMissions : list missionSnap) :
  accepting w →
  privateProfiles w !! userId = None →
  (∀ m, m ∈ dailyMissions → missions w !! m.1 = Some m.2) →
  let settled := List.filter toReward dailyMissions in
  ∃ w',
    processRewards userId dailyMissions w = (Ok tt, w') ∧
    privateProfiles w' = privateProfiles w ∧ publicProfiles w' = publicProfiles w ∧
    (∀ id, missions w' !! id =
             if decide (id ∈ settled.*1) then markRewarded <$> missions w !! id
             else missions w !! id) ∧
    processRewards userId (refresh w' dailyMissions) w' = (Ok tt, w').
Proof.
  intros Hacc Hnone Hsnap settled.
  assert (∀ m, m ∈ settled → m ∈ dailyMissions) as Hsub.
  { intros m Hm. apply list_elem_of_In in Hm. apply filter_In in Hm as [Hm _].
    by apply list_elem_of_In. }
  destruct (forOf_rewardMission_no_profile settled w Hacc Hnone)
    as (w' & Hfor & Hpriv & Hpub & Hmissions).
  { intros m Hm. rewrite (Hsnap m); [eauto | by apply Hsub]. }
  exists w'. split_and!; try done.
  - unfold processRewards. fold settled. case_decide as Hlen; [|done].
    destruct settled; [|done]. exact Hfor.
  - unfold processRewards. rewrite filter_toReward_nil; [done|].
    intros [id m]. unfold refresh. rewrite list_elem_of_omap.
    intros ([id0 m0] & Hin & Hm). simpl in Hm.
    pose proof (Hsnap _ Hin) as Hstored. simpl in Hstored.
    rewrite Hmissions, Hstored in Hm.
    case_decide as Hsettled; simplify_eq/=.
    + apply toReward_markRewarded.
    + apply not_true_is_false. intros Hrew. apply Hsettled.
      apply (list_elem_of_fmap_2 fst settled (id, m)).
      apply list_elem_of_In, filter_In. split; [by apply list_elem_of_In | done].
Qed.

End SettlementAnyStore.

Lemma processRewards_without_profile_witness :
  let w := set_privateProfiles (λ _, ∅) sampleWorld in
  ∃ w',
    processRewards "uid-1" [("m1", sampleMission)] w = (Ok tt, w') ∧
    privateProfiles w' = privateProfiles w ∧
    missions w' !! "m1" = Some (markRewarded sampleMission).
Proof.
  intros w.
  destruct (processRewards_without_profile "uid-1" w [("m1", sampleMission)])
    as (w' & Hrun & Hpriv & _ & Hmissions & _).
  - intros r. reflexivity.
  - reflexivity.
  - intros m Hm. apply list_elem_of_singleton in Hm. rewrite Hm. reflexivity.
  - exists w'. split; [exact Hrun|]. split; [exact Hpriv|].
    rewrite (Hmissions "m1"). reflexivity.
Defined.

(** ** The mission handlers *)

Section MissionHandlers.

Variables (w : world) (missionId : string).

Lemma updateDoc_mission_run (fields : mission → mission) (d : mission) :
  rejects w (missionDoc missionId) = false →
  missions w !! missionId = Some d →
  updateDoc_mission missionId fields w =
    (Ok tt, tick (set_missions <[missionId := fields d]> w)).
Proof. intros Hacc Hd. io_unfold. rewrite Hacc. simpl. by rewrite Hd. Qed.

(** A write of fields that keep the reward, under a handler that catches
    every error. *)
Lemma caught_update_onlyMission (fields : nat → mission → mission) (line : error → string) :
  (∀ now d, sameReward d (fields now d)) →
  ∃ w',
    try_catch (now ← gets clock; updateDoc_mission missionId (fields now))
      (λ error, modify (log (line error))) w = (Ok tt, w') ∧
    onlyMission missionId w w'.
Proof.
  intros Hfields. io_unfold. simpl.
  destruct (rejects w (missionDoc missionId)); simpl.
  { eexists. split; [done|]. unfold onlyMission, sessionKept. simpl.
    split_and!; try done. by left. }
  destruct (missions w !! missionId) as [d|] eqn:Hd; simpl.
  - eexists. split; [done|]. unfold onlyMission, sessionKept. simpl.
    split_and!; try done.
    + intros id Hne. by rewrite lookup_insert_ne.
    + right. exists d, (fields (clock w) d). rewrite lookup_insert_eq. by split_and!.
  - eexists. split; [done|]. unfold onlyMission, sessionKept. simpl.
    split_and!; try done. by left.
Qed.

(** X8. Whatever the store does, the completion request of the student and
    the toggle of the teacher return normally and change nothing but the
    one mission document: no profile is touched, so the teacher's toggle
    neither grants nor takes back a reward, and the mission keeps its
    reward, its owner and its flag [isStudentRewarded]. *)
Theorem mission_handlers_contained (userId : option string) (studentId0 : string)
    (m : mission) (isCompleted0 : option bool) :
  (∃ w', handleStudentRequestMissionCompletion userId missionId w = (Ok tt, w') ∧
         onlyMission missionId w w') ∧
  (∃ w', handleTeacherMissionToggle studentId0 (missionId, m) isCompleted0 w = (Ok tt, w') ∧
         onlyMission missionId w w').
Proof.
  split.
  - unfold handleStudentRequestMissionCompletion. destruct userId as [uid|].
    + apply caught_update_onlyMission. intros now d. by repeat split.
    + exists w. split; [done|]. unfold onlyMission.
      split_and!; [apply sessionKept_refl|done|done|done|done|by left].
  - unfold handleTeacherMissionToggle.
    apply caught_update_onlyMission. intros now d. by repeat split.
Qed.

End MissionHandlers.

Section MissionLifecycle.

Variables (userId teacherId missionId : string).

Lemma request_run (w : world) (d : mission) :
  accepting w → missions w !! missionId = Some d →
  handleStudentRequestMissionCompletion (Some userId) missionId w =
    (Ok tt, tick (set_missions <[missionId := requestFields (clock w) d]> w)).
Proof.
  intros Hacc Hd. unfold handleStudentRequestMissionCompletion, try_catch.
  unfold mbind at 1, io_bind at 1, bind at 1, gets.
  by rewrite (updateDoc_mission_run w missionId _ d).
Qed.

Lemma teacherClick_run (w : world) (d : mission) :
  accepting w → missions w !! missionId = Some d →
  teacherClick teacherId missionId w =
    (Ok tt,
     tick (set_missions <[missionId := toggleFields (isCompleted d) (clock w) d]> w)).
Proof.
  intros Hacc Hd. unfold teacherClick. rewrite Hd.
  unfold handleTeacherMissionToggle, try_catch.
  unfold mbind at 1, io_bind at 1, bind at 1, gets.
  by rewrite (updateDoc_mission_run w missionId _ d).
Qed.

Lemma refresh_one (w : world) (d0 d : mission) :
  missions w !! missionId = Some d → refresh w [(missionId, d0)] = [(missionId, d)].
Proof. intros Hd. unfold refresh. simpl. by rewrite Hd. Qed.

(** X9. The life of a mission, the store accepting every request and the
    private profile of the student being present. From a mission that is
    neither completed nor rewarded: the request of the student marks it as
    pending and does not make it due for a reward; the click of the teacher
    marks it as completed, no longer pending and due; the settlement then
    grants its XP and gold and marks it as rewarded. When the teacher
    afterwards unchecks and checks the mission again, it is completed and
    still rewarded, and a further settlement changes nothing. *)
Theorem mission_lifecycle (w : world) (d : mission) (cur : profile) :
  accepting w →
  missions w !! missionId = Some d →
  Js.truthy (isCompleted d) = false →
  Js.truthy (isStudentRewarded d) = false →
  privateProfiles w !! userId = Some cur →
  ∃ w1 w2 w3 w4 w5 d1 d2 d3 d5 p3,
    handleStudentRequestMissionCompletion (Some userId) missionId w = (Ok tt, w1) ∧
    missions w1 !! missionId = Some d1 ∧
    isPendingApproval d1 = Some true ∧ toReward (missionId, d1) = false ∧
    teacherClick teacherId missionId w1 = (Ok tt, w2) ∧
    missions w2 !! missionId = Some d2 ∧
    isCompleted d2 = Some true ∧ isPendingApproval d2 = Some false ∧
    toReward (missionId, d2) = true ∧
    processRewards userId (refresh w2 [(missionId, d)]) w2 = (Ok tt, w3) ∧
    missions w3 !! missionId = Some d3 ∧
    isCompleted d3 = Some true ∧ isStudentRewarded d3 = Some true ∧
    privateProfiles w3 !! userId = Some p3 ∧
    default 0 (xp p3) = default 0 (xp cur) + default 0 (rewardXp d) ∧
    default 0 (gold p3) = default 0 (gold cur) + default 0 (rewardGold d) ∧
    teacherClick teacherId missionId w3 = (Ok tt, w4) ∧
    teacherClick teacherId missionId w4 = (Ok tt, w5) ∧
    missions w5 !! missionId = Some d5 ∧
    isCompleted d5 = Some true ∧ isStudentRewarded d5 = Some true ∧
    processRewards userId (refresh w5 [(missionId, d)]) w5 = (Ok tt, w5).
Proof.
  intros Hacc Hd Hcompleted Hrewarded Hcur.
  (* the request *)
  pose proof (request_run w d Hacc Hd) as Hrun1.
  set (d1 := requestFields (clock w) d) in Hrun1.
  set (w1 := tick (set_missions <[missionId := d1]> w)) in Hrun1.
  assert (accepting w1) as Hacc1 by done.
  assert (missions w1 !! missionId = Some d1) as Hd1
    by (subst w1; simpl; by rewrite lookup_insert_eq).
  (* the approval *)
  pose proof (teacherClick_run w1 d1 Hacc1 Hd1) as Hrun2.
  set (d2 := toggleFields (isCompleted d1) (clock w1) d1) in Hrun2.
  set (w2 := tick (set_missions <[missionId := d2]> w1)) in Hrun2.
  assert (accepting w2) as Hacc2 by done.
  assert (missions w2 !! missionId = Some d2) as Hd2
    by (subst w2; simpl; by rewrite lookup_insert_eq).
  assert (isCompleted d2 = Some true) as Hc2
    by (subst d2 d1; simpl; by rewrite Hcompleted).
  assert (toReward (missionId, d2) = true) as Hdue.
  { unfold toReward. cbn [snd]. rewrite Hc2. subst d2 d1. simpl. by rewrite Hrewarded. }
  (* the settlement *)
  destruct (forOf_rewardMission userId [(missionId, d2)] w2 cur Hacc2)
    as (w3 & p3 & Hfor & Hacc3 & Hp3 & Hxp & Hgold & _ & Hmissions3).
  { done. }
  { intros m Hm. apply list_elem_of_singleton in Hm as ->. exists d2. exact Hd2. }
  assert (processRewards userId (refresh w2 [(missionId, d)]) w2 = (Ok tt, w3)) as Hrun3.
  { rewrite (refresh_one w2 d d2 Hd2). unfold processRewards. simpl. rewrite Hdue.
    simpl. exact Hfor. }
  assert (missions w3 !! missionId = Some (markRewarded d2)) as Hd3.
  { rewrite Hmissions3. rewrite decide_True by (simpl; left). by rewrite Hd2. }
  (* unchecked and checked again *)
  pose proof (teacherClick_run w3 (markRewarded d2) Hacc3 Hd3) as Hrun4.
  set (d4 := toggleFields _ (clock w3) (markRewarded d2)) in Hrun4.
  set (w4 := tick (set_missions <[missionId := d4]> w3)) in Hrun4.
  assert (accepting w4) as Hacc4 by done.
  assert (missions w4 !! missionId = Some d4) as Hd4
    by (subst w4; simpl; by rewrite lookup_insert_eq).
  pose proof (teacherClick_run w4 d4 Hacc4 Hd4) as Hrun5.
  set (d5 := toggleFields (isCompleted d4) (clock w4) d4) in Hrun5.
  set (w5 := tick (set_missions <[missionId := d5]> w4)) in Hrun5.
  assert (missions w5 !! missionId = Some d5) as Hd5
    by (subst w5; simpl; by rewrite lookup_insert_eq).
  assert (isCompleted d5 = Some true) as Hc5.
  { subst d5 d4. simpl. by rewrite Hcompleted. }
  exists w1, w2, w3, w4, w5, d1, d2, (markRewarded d2), d5, p3.
  split_and!; try done.
  - unfold toReward. cbn [snd]. subst d1. simpl. by rewrite Hcompleted.
  - rewrite Hxp. simpl. subst d2 d1. simpl. lia.
  - rewrite Hgold. simpl. subst d2 d1. simpl. lia.
  - rewrite (refresh_one w5 d d5 Hd5). unfold processRewards. simpl.
    unfold toReward. cbn [snd]. rewrite Hc5. by subst d5 d4.
Qed.

End MissionLifecycle.

Lemma mission_lifecycle_witness :
  let fresh := Mission "uid-1" "수리" (Some 20) (Some 3) (Some false) (Some false)
                       (Some false) ∅ in
  let w := set_missions <["m2" := fresh]> sampleWorld in
  ∃ w1 w2 w3 p3,
    handleStudentRequestMissionCompletion (Some "uid-1") "m2" w = (Ok tt, w1) ∧
    teacherClick "teacher-1" "m2" w1 = (Ok tt, w2) ∧
    processRewards "uid-1" (refresh w2 [("m2", fresh)]) w2 = (Ok tt, w3) ∧
    privateProfiles w3 !! "uid-1" = Some p3 ∧
    default 0 (xp p3) = 95 + 20.
Proof.
  intros fresh w.
  destruct (mission_lifecycle "uid-1" "teacher-1" "m2" w fresh sampleProfile)
    as (w1 & w2 & w3 & _ & _ & _ & _ & _ & _ & p3 & H1 & _ & _ & _ & H2 & _ & _ & _
        & _ & H3 & _ & _ & _ & Hp3 & Hxp & _).
  - intros r. reflexivity.
  - reflexivity.
  - reflexivity.
  - reflexivity.
  - reflexivity.
  - exists w1, w2, w3, p3. split; [exact H1|]. split; [exact H2|].
    split; [exact H3|]. split; [exact Hp3 | exact Hxp].
Defined.

(** ** The routine toggle and the store *)

Section RoutineAnyStore.

Variables (userId routineId todayDateString : string).

(** X10. When the write of the completion fails, because the store refuses
    it or because the routine document does not exist, no reward is
    granted, whatever the click: the handler returns normally and the only
    change is one line on the console. *)
Theorem toggle_write_failed (w : world) (r : routine) (isNowChecked : bool) :
  rejects w (customRoutineDoc userId routineId) = true
    ∨ customRoutines w !! (userId, routineId) = None →
  ∃ line,
    handleToggleTodaysRoutineCompletion (Some userId) todayDateString (routineId, r)
      isNowChecked w = (Ok tt, log line w).
Proof.
  intros Hfail. unfold handleToggleTodaysRoutineCompletion. io_unfold. simpl.
  destruct (rejects w (customRoutineDoc userId routineId)) eqn:Hrej; simpl; [eauto|].
  destruct Hfail as [?|Hnone]; [done|]. rewrite Hnone. simpl. eauto.
Qed.

(** X11. The handler decides on the reward from the routine it is given,
    not from the store: two clicks to completed that are both given a
    routine showing the date as not completed grant the reward twice. *)
Theorem toggle_stale_snapshot_rewards_twice (w : world) (r d : routine) (cur : profile) :
  accepting w →
  customRoutines w !! (userId, routineId) = Some d →
  privateProfiles w !! userId = Some cur →
  completedOn todayDateString r = false →
  ∃ w1 w2,
    handleToggleTodaysRoutineCompletion (Some userId) todayDateString (routineId, r)
      true w = (Ok tt, w1) ∧
    handleToggleTodaysRoutineCompletion (Some userId) todayDateString (routineId, r)
      true w1 = (Ok tt, w2) ∧
    ∀ skill, score w2 userId skill = score w userId skill + 2 * routineReward skill.
Proof.
  intros Hacc Hd Hcur Hstale.
  pose proof (handleToggle_run userId routineId todayDateString w r d cur true Hacc Hd Hcur)
    as Hrun1.
  cbv zeta in Hrun1. rewrite Hstale in Hrun1. cbn [andb negb] in Hrun1.
  set (cur1 := mergeProfile (S (S (clock w))) (updatedProfile cur routineUpdates) cur)
    in Hrun1.
  set (w1 := tick (set_privateProfiles <[userId := cur1]> _)) in Hrun1.
  assert (accepting w1) as Hacc1 by done.
  assert (customRoutines w1 !! (userId, routineId)
          = Some (setCompletedDay todayDateString true d)) as Hd1.
  { subst w1. cbn. by rewrite lookup_insert_eq. }
  assert (privateProfiles w1 !! userId = Some cur1) as Hcur1.
  { subst w1. cbn. by rewrite lookup_insert_eq. }
  pose proof (handleToggle_run userId routineId todayDateString w1 r _ cur1 true
                Hacc1 Hd1 Hcur1) as Hrun2.
  cbv zeta in Hrun2. rewrite Hstale in Hrun2. cbn [andb negb] in Hrun2.
  do 2 eexists. split; [exact Hrun1|]. split; [exact Hrun2|].
  intros skill. unfold score. cbn. rewrite lookup_insert_eq, Hcur.
  rewrite score_updated, routineUpdates_lookup. subst cur1.
  rewrite score_updated, routineUpdates_lookup. lia.
Qed.

End RoutineAnyStore.

Lemma toggle_write_failed_witness :
  ∃ line,
    handleToggleTodaysRoutineCompletion (Some "uid-1") "2025-03-04" ("r9", sampleRoutine)
      true sampleWorld = (Ok tt, log line sampleWorld).
Proof.
  apply (toggle_write_failed "uid-1" "r9" "2025-03-04" sampleWorld sampleRoutine true).
  right. reflexivity.
Defined.

Lemma toggle_stale_snapshot_rewards_twice_witness :
  ∃ w1 w2,
    handleToggleTodaysRoutineCompletion (Some "uid-1") "2025-03-04" ("r1", sampleRoutine)
      true sampleWorld = (Ok tt, w1) ∧
    handleToggleTodaysRoutineCompletion (Some "uid-1") "2025-03-04" ("r1", sampleRoutine)
      true w1 = (Ok tt, w2) ∧
    ∀ skill, score w2 "uid-1" skill = score sampleWorld "uid-1" skill + 2 * routineReward skill.
Proof.
  apply (toggle_stale_snapshot_rewards_twice "uid-1" "r1" "2025-03-04" sampleWorld
           sampleRoutine sampleRoutine sampleProfile).
  - intros r. reflexivity.
  - reflexivity.
  - reflexivity.
  - reflexivity.
Defined.

Section RoutineContained.

Variables (userId routineId todayDateString : string).

(** X12. In every state of the store, whichever documents exist and
    whichever documents refuse the requests made to them, and whatever
    routine the handler is given, a click returns normally and changes no
    mission, no other routine, no profile of another user and nothing of
    the session; of the routine itself only the completion of today can
    change, and then it is what the click says: every other date and every
    other field stay as they are.

    A store that serves the read of a document and refuses a later write
    to the same document is not covered. *)
Theorem toggle_contained (w : world) (r : routine) (isNowChecked : bool) :
  ∃ w',
    handleToggleTodaysRoutineCompletion (Some userId) todayDateString (routineId, r)
      isNowChecked w = (Ok tt, w') ∧
    sessionKept w w' ∧ otherProfilesKept userId w w' ∧ missions w' = missions w ∧
    (∀ key, key ≠ (userId, routineId) → customRoutines w' !! key = customRoutines w !! key) ∧
    (customRoutines w' !! (userId, routineId) = customRoutines w !! (userId, routineId) ∨
     ∃ d d', customRoutines w !! (userId, routineId) = Some d ∧
             customRoutines w' !! (userId, routineId) = Some d' ∧
             routineOthers d' = routineOthers d ∧
             completedOn todayDateString d' = isNowChecked ∧
             ∀ date, date ≠ todayDateString → completedOn date d' = completedOn date d).
Proof.
  unfold handleToggleTodaysRoutineCompletion.
  unfold try_catch at 1. unfold mbind at 1, io_bind at 1, bind at 1.
  destruct (updateDoc_routine userId routineId
              (setCompletedDay todayDateString isNowChecked) w) as [[[]|e] w1] eqn:Hwrite.
  - (* the write is applied *)
    revert Hwrite. io_unfold.
    destruct (rejects w (customRoutineDoc userId routineId)); simpl; [done|].
    destruct (customRoutines w !! (userId, routineId)) as [d|] eqn:Hd; simpl; [|done].
    intros [= <-].
    assert (∃ d', customRoutines
                     (tick (set_customRoutines
                        <[(userId, routineId) :=
                            setCompletedDay todayDateString isNowChecked d]> w))
                     !! (userId, routineId) = Some d' ∧
                  routineOthers d' = routineOthers d ∧
                  completedOn todayDateString d' = isNowChecked ∧
                  ∀ date, date ≠ todayDateString →
                    completedOn date d' = completedOn date d) as (d' & Hd' & Hkept).
    { eexists. simpl. rewrite lookup_insert_eq. split; [done|]. split_and!; [done|..].
      - apply completedOn_setCompletedDay.
      - intros date Hne. unfold completedOn, setCompletedDay, Js.or_obj. simpl.
        rewrite lookup_insert_ne by done. by destruct (completedDays d). }
    destruct (isNowChecked && negb _).
    + destruct (updateStudentProfile_effect
                  (tick (set_customRoutines
                     <[(userId, routineId) :=
                         setCompletedDay todayDateString isNowChecked d]> w))
                  userId userId routineUpdates)
        as (w' & -> & (? & ? & ? & ? & ? & ?) & Hothers & Hm & Hr & _).
      exists w'. split; [done|]. split_and!; try done.
      * intros key Hne. rewrite Hr. simpl. by rewrite lookup_insert_ne.
      * right. exists d, d'. rewrite Hr. by split.
    + eexists. split; [done|]. split_and!; try done.
      * intros key Hne. simpl. by rewrite lookup_insert_ne.
      * right. exists d, d'. by split.
  - (* the write fails *)
    assert (w1 = w) as ->.
    { revert Hwrite. io_unfold.
      destruct (rejects w (customRoutineDoc userId routineId)); simpl; [congruence|].
      destruct (customRoutines w !! (userId, routineId)); simpl; congruence. }
    eexists. split; [done|]. split_and!; try done. by left.
Qed.

End RoutineContained.

(** ** Login, whatever the store does *)

Section LoginAnyStore.

Variables (w : world) (inputID inputPassword : string).

(** X13. Credentials that match neither table make [login] fail with the
    message of the wrong credentials: no document is written, the role of
    the session stays as it is, one line goes to the console and the
    loading flag ends up cleared. Without a session [login] fails at once
    and changes nothing at all. *)
Theorem login_rejected :
  studentAccounts w !! inputID ≠ Some inputPassword →
  teacherAccounts w !! inputID ≠ Some inputPassword →
  match currentUser w with
  | Some _ =>
      ∃ w', login inputID inputPassword w = (Ok (LoginFailed bad_credentials), w') ∧
        privateProfiles w' = privateProfiles w ∧ publicProfiles w' = publicProfiles w ∧
        userRole w' = userRole w ∧ loading w' = false ∧
        console w' = (console w ++ [("Login failed: " ++ bad_credentials)%string])%list
  | None =>
      login inputID inputPassword w = (Ok (LoginFailed "Firebase is not ready."), w)
  end.
Proof.
  intros Hs Ht. unfold login. io_unfold.
  destruct (currentUser w) as [uid|]; [|done]. simpl.
  rewrite decide_False by done. rewrite decide_False by done. simpl.
  eexists. split; [done|]. by split_and!.
Qed.

(** X14. With a session, [login] always returns a result, never an error,
    whatever the store does, and the loading flag is cleared at the end.
    The role of the session changes only on success, to the role returned,
    which is the role of the table the credentials match; on failure it
    stays as it was. *)
Theorem login_returns (uid : string) :
  currentUser w = Some uid →
  ∃ r w', login inputID inputPassword w = (Ok r, w') ∧ loading w' = false ∧
    match r with
    | LoginOk role =>
        userRole w' = Some role ∧
        (role = "student" ∧ studentAccounts w !! inputID = Some inputPassword ∨
         role = "teacher" ∧ teacherAccounts w !! inputID = Some inputPassword)
    | LoginFailed _ => userRole w' = userRole w
    end.
Proof.
  intros Huser. unfold login. io_unfold. rewrite Huser. simpl.
  destruct (decide (studentAccounts w !! inputID = Some inputPassword)) as [Hs|Hs]; simpl.
  - destruct (rejects w (profileDoc (userProfile uid))); simpl.
    { do 2 eexists. split; [done|]. by split. }
    destruct (rejects w (profileDoc (publicStudentProfile uid))); simpl.
    { do 2 eexists. split; [done|]. by split. }
    do 2 eexists. split; [done|]. split; [done|]. split; [done|]. by left.
  - destruct (decide (teacherAccounts w !! inputID = Some inputPassword)) as [Ht|Ht]; simpl.
    + destruct (rejects w (profileDoc (userProfile uid))); simpl.
      { do 2 eexists. split; [done|]. by split. }
      do 2 eexists. split; [done|]. split; [done|]. split; [done|]. by right.
    + do 2 eexists. split; [done|]. by split.
Qed.

(** X15. The two writes of a student login are not one step: when the
    store takes the private profile and refuses the public mirror, [login]
    fails and sets no role, and yet the private profile has been written
    and shows the initial values. *)
Theorem login_partial_write (uid : string) :
  currentUser w = Some uid →
  studentAccounts w !! inputID = Some inputPassword →
  rejects w (profileDoc (userProfile uid)) = false →
  rejects w (profileDoc (publicStudentProfile uid)) = true →
  ∃ w' p',
    login inputID inputPassword w = (Ok (LoginFailed refused), w') ∧
    userRole w' = userRole w ∧ publicProfiles w' = publicProfiles w ∧
    privateProfiles w' !! uid = Some p' ∧ initialValues p'.
Proof.
  intros Huser Hs Hpriv Hpub. unfold login. io_unfold. rewrite Huser. simpl.
  rewrite decide_True by done. simpl. rewrite Hpriv. simpl. rewrite Hpub. simpl.
  do 2 eexists. split; [done|]. simpl. rewrite lookup_insert_eq.
  split_and!; try done. by apply mergeProfile_login_initialValues.
Qed.

End LoginAnyStore.

Lemma login_rejected_witness :
  ∃ w', login "김대수" "0000" sampleWorld = (Ok (LoginFailed bad_credentials), w') ∧
        privateProfiles w' = privateProfiles sampleWorld.
Proof.
  pose proof (login_rejected sampleWorld "김대수" "0000") as H.
  destruct H as (w' & Hrun & Hpriv & _).
  - intros Heq. vm_compute in Heq. discriminate Heq.
  - intros Heq. vm_compute in Heq. discriminate Heq.
  - exists w'. split; [exact Hrun | exact Hpriv].
Defined.

Lemma login_returns_witness :
  ∃ r w', login "교사" "5555" sampleWorld = (Ok r, w') ∧ loading w' = false.
Proof.
  destruct (login_returns sampleWorld "교사" "5555" "uid-1") as (r & w' & Hrun & Hl & _).
  - reflexivity.
  - exists r, w'. split; [exact Hrun | exact Hl].
Defined.

Lemma login_partial_write_witness :
  ∃ w' p',
    login "김대수" "1024" (set_rejects refusesMirrors sampleWorld)
      = (Ok (LoginFailed refused), w') ∧
    privateProfiles w' !! "uid-1" = Some p' ∧ initialValues p'.
Proof.
  destruct (login_partial_write (set_rejects refusesMirrors sampleWorld)
              "김대수" "1024" "uid-1") as (w' & p' & Hrun & _ & _ & Hp' & Hinit).
  - reflexivity.
  - reflexivity.
  - reflexivity.
  - reflexivity.
  - exists w', p'. split; [exact Hrun|]. split; [exact Hp' | exact Hinit].
Defined.

(** ** The retrying call and its callers *)

Module GeminiCallersFacts.
Import Gemini GeminiFacts GeminiCallers.

(** The sum of the waits of a trace, in milliseconds. *)
Definition waited (tr : list event) : Z :=
  sumZ ((λ e, match e with Sleep ms => ms | _ => 0 end) <$> schedule tr).

(** The result of the wrapper is the first success among the three
    attempts, or the third error. *)
Lemma callGemini_result (fetch : nat → fetched) :
  (callGeminiAPIWithExponentialBackoff fetch).2 =
    match attempt (fetch 0%nat), attempt (fetch 1%nat), attempt (fetch 2%nat) with
    | inr t, _, _ | inl _, inr t, _ | inl _, inl _, inr t => Ok (Some t)
    | inl _, inl _, inl e => Throw e
    end.
Proof.
  unfold callGeminiAPIWithExponentialBackoff.
  destruct (attempts_turn fetch 3 0 1000) as [-> _]; [lia|].
  destruct (attempts_turn fetch 3 1 (1000 * 2)) as [-> _]; [lia|].
  destruct (attempts_turn fetch 3 2 (1000 * 2 * 2)) as [-> _]; [lia|].
  by destruct (attempt (fetch 0%nat)), (attempt (fetch 1%nat)), (attempt (fetch 2%nat)).
Qed.

Lemma callGemini_waited (fetch : nat → fetched) :
  waited (callGeminiAPIWithExponentialBackoff fetch).1 ∈ [0; 1000; 3000].
Proof.
  unfold waited, callGeminiAPIWithExponentialBackoff.
  destruct (attempts_turn fetch 3 0 1000) as [_ ->]; [lia|].
  destruct (attempts_turn fetch 3 1 (1000 * 2)) as [_ ->]; [lia|].
  destruct (attempts_turn fetch 3 2 (1000 * 2 * 2)) as [_ ->]; [lia|].
  destruct (attempt (fetch 0%nat)), (attempt (fetch 1%nat)), (attempt (fetch 2%nat));
    cbn; repeat first [by left | right].
Qed.

(** A text the wrapper returns is not empty. *)
Lemma callGemini_text (fetch : nat → fetched) (t : string) :
  (callGeminiAPIWithExponentialBackoff fetch).2 = Ok (Some t) → Js.truthy_str t = true.
Proof.
  rewrite callGemini_result. intros Hrun.
  assert (∃ i, attempt (fetch i) = inr t) as [i Hi].
  { destruct (attempt (fetch 0%nat)) eqn:E0, (attempt (fetch 1%nat)) eqn:E1,
      (attempt (fetch 2%nat)) eqn:E2; inversion Hrun; subst; eauto. }
  apply attempt_wellShaped in Hi as (? & ? & _ & _ & _ & _ & Hne). by destruct t.
Qed.

Lemma callGemini_null (fetch : nat → fetched) :
  (callGeminiAPIWithExponentialBackoff fetch).2 ≠ Ok None.
Proof.
  rewrite callGemini_result.
  by destruct (attempt (fetch 0%nat)), (attempt (fetch 1%nat)), (attempt (fetch 2%nat)).
Qed.

(** X16. The wrapper never returns [null], so the [return null] after the
    loop is never reached, and a text it returns is never empty; over a
    whole call it waits 0, 1000 or 3000 ms in total. *)
Theorem callGemini_never_null (fetch : nat → fetched) :
  let run := callGeminiAPIWithExponentialBackoff fetch in
  run.2 ≠ Ok None ∧
  (∀ t, run.2 = Ok (Some t) → t ≠ "") ∧
  waited run.1 ∈ [0; 1000; 3000].
Proof.
  intros run. subst run. split_and!.
  - apply callGemini_null.
  - intros t Ht%callGemini_text. by intros ->.
  - apply callGemini_waited.
Qed.

(** X17. The structured call parses the text the wrapper returns, once and
    outside the retry loop: its trace is the trace of the wrapper, so a text
    that does not parse makes it throw the error of the parser without a
    further attempt. It returns the parsed value when the text parses and
    throws the error of the wrapper when the wrapper throws. The
    alternative [: null] of its last line is never taken: the result does
    not depend on it, and the call returns [null] only when the parser
    gives [null] for the text returned (as [JSON.parse] does for the text
    [null]). *)
Theorem callGeminiAPIStructured_parses_once {J} (null : J) (parse : string → error + J)
    (fetch : nat → fetched) :
  let run := callGeminiAPIWithExponentialBackoff fetch in
  let structured := callGeminiAPIStructured null parse fetch in
  structured.1 = run.1 ∧
  match run.2 with
  | Ok (Some t) =>
      t ≠ "" ∧
      structured.2 = match parse t with inr v => Ok v | inl e => Throw e end
  | Ok None => False
  | Throw e => structured.2 = Throw e
  end ∧
  (structured.2 = Ok null → ∃ t, run.2 = Ok (Some t) ∧ parse t = inr null) ∧
  (∀ other : J, callGeminiAPIStructured other parse fetch = structured).
Proof.
  intros run structured. subst run structured. unfold callGeminiAPIStructured.
  pose proof (callGemini_text fetch) as Htext.
  pose proof (callGemini_null fetch) as Hnull.
  destruct (callGeminiAPIWithExponentialBackoff fetch) as [tr [[t|]|e]]; simpl in *.
  - rewrite (Htext t eq_refl). split_and!.
    + by destruct (parse t).
    + intros ->. by specialize (Htext "" eq_refl).
    + by destruct (parse t).
    + destruct (parse t) as [e|v] eqn:Hparse; simpl; [done|].
      intros [= ->]. by exists t.
    + done.
  - done.
  - split_and!; done.
Qed.

(** X18. The feedback stored with a journal entry is never empty: it is
    the text of the first successful attempt, or the message of the error
    case when the three attempts fail. The message of the [||] fallback is
    never used. *)
Theorem journalFeedback_never_empty (fetch : nat → fetched) :
  journalFeedback fetch ≠ "" ∧
  journalFeedback fetch =
    match (callGeminiAPIWithExponentialBackoff fetch).2 with
    | Ok (Some t) => t
    | _ => feedback_error
    end.
Proof.
  unfold journalFeedback, callGeminiAPI.
  pose proof (callGemini_text fetch) as Htext.
  pose proof (callGemini_null fetch) as Hnull.
  destruct ((callGeminiAPIWithExponentialBackoff fetch).2) as [[t|]|e]; simpl in *.
  - rewrite (Htext t eq_refl). split; [|done]. intros ->. by specialize (Htext "" eq_refl).
  - done.
  - done.
Qed.

End GeminiCallersFacts.

(** ** The weekday selection *)

(** X19. A click on a weekday flips the selection of that day and of no
    other day, keeps a selection free of repetitions free of them, and two
    clicks on a day that was not selected give the selection back as it
    was. *)
Theorem handleDayToggle_flips (day : string) (p : list string) :
  (day ∈ handleDayToggle day p ↔ day ∉ p) ∧
  (∀ d, d ≠ day → (d ∈ handleDayToggle day p ↔ d ∈ p)) ∧
  (NoDup p → NoDup (handleDayToggle day p)) ∧
  (day ∉ p → handleDayToggle day (handleDayToggle day p) = p).
Proof.
  unfold handleDayToggle at 1 2 3. split_and!.
  - case_decide as Hin.
    + rewrite list_elem_of_filter. split; [by intros [? _]|done].
    + rewrite elem_of_app, list_elem_of_singleton. split; [done|]. by right.
  - intros d Hne. case_decide as Hin.
    + rewrite list_elem_of_filter. split; [by intros [_ ?]|done].
    + rewrite elem_of_app, list_elem_of_singleton. split; [by intros [?|?]|by left].
  - intros Hnd. case_decide as Hin.
    + by apply NoDup_filter.
    + apply NoDup_app. split_and!; [done| |apply NoDup_singleton].
      intros d Hd ->%list_elem_of_singleton. done.
  - intros Hnot. unfold handleDayToggle.
    rewrite (decide_False (P := day ∈ p)) by done.
    rewrite decide_True by (apply elem_of_app; right; by left).
    rewrite filter_app, filter_cons_False, filter_nil, app_nil_r by (by intros ?).
    clear -Hnot. induction p as [|d p IH]; [done|].
    apply not_elem_of_cons in Hnot as [Hne Hnot].
    rewrite filter_cons_True by done. by rewrite IH.
Qed.

(** ** The lists of the teacher dashboard *)

(** What [find] gives on the stored profiles: the first one that carries
    the name. *)
Lemma find_firestoreStudents (name : string) (docs : list (string * profile)) :
  match List.find (λ fs, bool_decide (displayNameOf fs = Some (SStr name)))
                  (firestoreStudents docs) with
  | Some fs =>
      displayNameOf fs = Some (SStr name) ∧ fromFirestore fs = true ∧
      ∃ before after,
        docs = (before ++ (rowId fs, rowData fs) :: after)%list ∧
        ∀ doc, doc ∈ before → others doc.2 !! "displayName" ≠ Some (SStr name)
  | None => ∀ doc, doc ∈ docs → others doc.2 !! "displayName" ≠ Some (SStr name)
  end.
Proof.
  induction docs as [|[id data] docs IH]; simpl.
  { intros doc Hdoc. by apply elem_of_nil in Hdoc. }
  case_bool_decide as Hname.
  - split; [done|]. split; [done|]. exists [], docs. split; [done|].
    intros doc Hdoc. by apply elem_of_nil in Hdoc.
  - destruct (List.find _ (firestoreStudents docs)) as [fs|].
    + destruct IH as (Hfs & Htrue & before & after & -> & Hbefore).
      split; [done|]. split; [done|].
      exists ((id, data) :: before), after. split; [done|].
      intros doc [->|Hdoc]%elem_of_cons; [done|by apply Hbefore].
    + intros doc [->|Hdoc]%elem_of_cons; [done|by apply IH].
Qed.

(** X20. The student list of the teacher has one row for each name of the
    account table, in the order of the names: the row of the first stored
    profile that carries the name, or a placeholder at level 0 when no
    stored profile carries it. So a stored profile whose name has no
    account is not listed, and of several profiles with one name only the
    first is. The rows shown are those not marked as deleted; a
    placeholder is never marked. *)
Theorem mergedStudents_rows (allStudentNames : list string) (docs : list (string * profile)) :
  Forall2
    (λ name row,
       displayNameOf row = Some (SStr name) ∧
       if fromFirestore row then
         ∃ before after,
           docs = (before ++ (rowId row, rowData row) :: after)%list ∧
           ∀ doc, doc ∈ before → others doc.2 !! "displayName" ≠ Some (SStr name)
       else
         row = placeholder name ∧
         ∀ doc, doc ∈ docs → others doc.2 !! "displayName" ≠ Some (SStr name))
    allStudentNames (mergedStudents allStudentNames docs) ∧
  (∀ row, row ∈ activeStudents allStudentNames docs ↔
          row ∈ mergedStudents allStudentNames docs ∧ truthy_scalar (isDeletedOf row) = false) ∧
  (∀ name, placeholder name ∈ mergedStudents allStudentNames docs →
           placeholder name ∈ activeStudents allStudentNames docs).
Proof.
  split_and!.
  - unfold mergedStudents. apply Forall2_fmap_r, Forall_Forall2_diag, Forall_forall.
    intros name _. unfold compose. cbv beta.
    pose proof (find_firestoreStudents name docs) as Hfind.
    destruct (List.find _ (firestoreStudents docs)) as [fs|].
    + destruct Hfind as (Hfs & -> & Hdocs). by split.
    + by split.
  - intros row. unfold activeStudents. rewrite list_elem_of_In, filter_In.
    rewrite <- list_elem_of_In, negb_true_iff. done.
  - intros name Hin. unfold activeStudents. apply list_elem_of_In, filter_In.
    split; [by apply list_elem_of_In|done].
Qed.

(** X21. The missions of the teacher dashboard are grouped by student:
    the group of a student holds the missions of the snapshot with that
    student identifier, in the order of the snapshot, and a student without
    a mission has no group. *)
Theorem missionsByStudent_groups (docs : list missionSnap) (sid : string) :
  missionsByStudent docs !! sid =
    match filter (λ m : missionSnap, studentId m.2 = sid) docs with
    | [] => None
    | group => Some group
    end.
Proof.
  unfold missionsByStudent.
  assert (∀ acc : gmap string (list missionSnap),
            foldl (λ (acc : gmap string (list missionSnap)) (m : missionSnap),
                     <[studentId m.2 := (default [] (acc !! studentId m.2) ++ [m])%list]> acc)
                  acc docs !! sid =
              match (default [] (acc !! sid)
                     ++ filter (λ m : missionSnap, studentId m.2 = sid) docs)%list with
              | [] => acc !! sid
              | group => Some group
              end) as Hgen.
  { induction docs as [|m docs IH]; intros acc; simpl.
    - rewrite app_nil_r. by destruct (acc !! sid) as [[|]|].
    - rewrite IH. destruct (decide (studentId m.2 = sid)) as [Heq|Hne].
      + rewrite filter_cons_True by done. rewrite Heq, lookup_insert_eq. simpl.
        rewrite <- app_assoc. simpl.
        by destruct (default [] (acc !! sid) ++ m :: filter _ docs)%list eqn:E;
          [destruct (default [] (acc !! sid)); done|].
      + rewrite filter_cons_False by done. by rewrite lookup_insert_ne. }
  rewrite Hgen, lookup_empty. simpl. by destruct (filter _ docs).
Qed.

(** ** Adding and hiding students *)

Section Students.

Variables (isBlank : string → bool) (nowMs : Z).

(** X22. [handleAddStudent] followed by [login], the two functions called
    one after the other on one account table with the session present.
    Called on a store that accepts the writes, with neither field of the
    form blank, [handleAddStudent] stores a public profile with the initial
    values under a new identifier. For every name but [__proto__] it enters
    the password in the account table, replacing the password the name had,
    and [login] with the name and the password then succeeds as a student;
    that login writes the profile of its own session, so the name is then
    carried by two public profiles when the session identifier is not the
    new identifier. For the name [__proto__] the profile is stored all the
    same, but the assignment leaves the table as it was and [login] fails.

    The account table is a value of the loaded page and is not stored, and
    the page shows the login form only after a logout, which is not part of
    the model: this is a property of the two functions, not of a path
    through the page. *)
Theorem added_student_logs_in (w : world) (uid newStudentName newStudentPassword : string) :
  accepting w →
  currentUser w = Some uid →
  isBlank newStudentName = false →
  isBlank newStudentPassword = false →
  ∃ w1 created,
    handleAddStudent isBlank nowMs newStudentName newStudentPassword w = (Ok tt, w1) ∧
    publicProfiles w1 !! newStudentIdAt nowMs = Some created ∧
    initialValues created ∧
    others created !! "displayName" = Some (SStr newStudentName) ∧
    (newStudentName ≠ "__proto__" →
     studentAccounts w1 = <[newStudentName := newStudentPassword]> (studentAccounts w) ∧
     ∃ w2 mirror,
       login newStudentName newStudentPassword w1 = (Ok (LoginOk "student"), w2) ∧
       publicProfiles w2 !! uid = Some mirror ∧
       others mirror !! "displayName" = Some (SStr newStudentName) ∧
       (uid ≠ newStudentIdAt nowMs →
        publicProfiles w2 !! newStudentIdAt nowMs = Some created)) ∧
    (newStudentName = "__proto__" →
     studentAccounts w1 = studentAccounts w ∧
     (studentAccounts w !! "__proto__" = None →
      teacherAccounts w !! "__proto__" = None →
      ∃ w2, login newStudentName newStudentPassword w1
              = (Ok (LoginFailed bad_credentials), w2))).
Proof.
  intros Hacc Huser Hname Hpw.
  set (w0 := tick (putProfile (publicStudentProfile (newStudentIdAt nowMs))
                     (studentProfileData (newStudentIdAt nowMs) newStudentName (clock w))
                     w)).
  set (w1 := set_studentAccounts (assign newStudentName newStudentPassword) w0).
  assert (handleAddStudent isBlank nowMs newStudentName newStudentPassword w = (Ok tt, w1))
    as Hadd.
  { unfold handleAddStudent, setDoc. rewrite Hname, Hpw. io_unfold. simpl.
    by rewrite Hacc. }
  exists w1, (studentProfileData (newStudentIdAt nowMs) newStudentName (clock w)).
  split; [exact Hadd|].
  split; [subst w1 w0; cbn; by rewrite lookup_insert_eq|].
  split.
  { split_and!; try done. intros skill Hin. cbn.
    rewrite initialSkills_lookup. by rewrite decide_True. }
  split; [done|]. split.
  - intros Hproto.
    assert (w1 = set_studentAccounts <[newStudentName := newStudentPassword]> w0) as Hw1.
    { subst w1. unfold assign. by destruct (decide (newStudentName = "__proto__")). }
    clearbody w1. subst w1 w0. split; [done|].
    set (w1 := set_studentAccounts _ _).
    assert (login newStudentName newStudentPassword w1 =
              (Ok (LoginOk "student"),
               set_loading false (set_userRole (Some "student")
                 (tick (putProfile (publicStudentProfile uid)
                    (mergeProfile (S (S (clock w)))
                       (publicProfileData (userProfileData uid "student" newStudentName))
                       (default emptyProfile (publicProfiles w1 !! uid)))
                    (tick (putProfile (userProfile uid)
                       (mergeProfile (S (clock w))
                          (userProfileData uid "student" newStudentName)
                          (default emptyProfile (privateProfiles w1 !! uid)))
                       (set_loading true w1)))))))) as Hlogin.
    { subst w1. unfold login. io_unfold. simpl. rewrite Huser. simpl.
      rewrite lookup_insert_eq. rewrite decide_True by done. simpl.
      by repeat (rewrite Hacc; simpl). }
    do 2 eexists. split; [exact Hlogin|].
    split; [cbn; by rewrite lookup_insert_eq|].
    split.
    { unfold mergeProfile, publicProfileData, userProfileData. cbn [others].
      rewrite lookup_union. rewrite !lookup_insert_ne by done.
      rewrite lookup_singleton_eq. by destruct (others _ !! "displayName"). }
    intros Hne. cbn. rewrite lookup_insert_ne by done. by rewrite lookup_insert_eq.
  - intros ->.
    assert (w1 = set_studentAccounts (λ obj, obj) w0) as Hw1 by done.
    clearbody w1. subst w1 w0. split; [done|]. intros Hstudents Hteachers.
    unfold login. io_unfold. simpl. rewrite Huser. simpl. rewrite Hstudents, Hteachers.
    rewrite !decide_False by done. eauto.
Qed.

(** X23. A student the teacher hides cannot log in as a student any more:
    when the store accepts the write and the public profile exists,
    [handleDeleteStudent] marks the profile as deleted, removes the name
    from the account table, and a login with the name then fails for every
    password, unless the name and password are those of a teacher. *)
Theorem hidden_student_cannot_log_in (w : world)
    (uid studentId0 studentName inputPassword : string) (d : profile) :
  accepting w →
  currentUser w = Some uid →
  publicProfiles w !! studentId0 = Some d →
  teacherAccounts w !! studentName ≠ Some inputPassword →
  ∃ w1 w2 d',
    handleDeleteStudent (Some (studentId0, studentName)) w = (Ok tt, w1) ∧
    publicProfiles w1 !! studentId0 = Some d' ∧
    truthy_scalar (others d' !! "isDeleted") = true ∧
    studentAccounts w1 = delete studentName (studentAccounts w) ∧
    login studentName inputPassword w1 = (Ok (LoginFailed bad_credentials), w2).
Proof.
  intros Hacc Huser Hd Hteacher.
  assert (handleDeleteStudent (Some (studentId0, studentName)) w =
            (Ok tt, set_studentAccounts (delete studentName)
                      (tick (putProfile (publicStudentProfile studentId0) (markDeleted d) w))))
    as Hdel.
  { unfold handleDeleteStudent, updateDoc_profile. io_unfold. simpl.
    rewrite Hacc. simpl. by rewrite Hd. }
  do 3 eexists. split; [exact Hdel|].
  split; [cbn; by rewrite lookup_insert_eq|].
  split; [cbn; by rewrite lookup_insert_eq|].
  split; [done|].
  unfold login. io_unfold. cbn. rewrite Huser. cbn.
  rewrite lookup_delete_eq. rewrite decide_False by done.
  rewrite decide_False by done. done.
Qed.

(** X24. The account table changes only after the store has taken the
    write: when the store refuses the new profile, [handleAddStudent]
    enters no account, and when the profile to hide does not exist or the
    store refuses the write, [handleDeleteStudent] removes none; each then
    only leaves a line on the console. Blank input changes nothing. *)
Theorem accounts_follow_store (w : world)
    (newStudentName newStudentPassword studentId0 studentName : string) :
  (isBlank newStudentName || isBlank newStudentPassword = true →
   handleAddStudent isBlank nowMs newStudentName newStudentPassword w = (Ok tt, w)) ∧
  (isBlank newStudentName || isBlank newStudentPassword = false →
   rejects w (profileDoc (publicStudentProfile (newStudentIdAt nowMs))) = true →
   ∃ line,
     handleAddStudent isBlank nowMs newStudentName newStudentPassword w
       = (Ok tt, log line w)) ∧
  (rejects w (profileDoc (publicStudentProfile studentId0)) = true
     ∨ publicProfiles w !! studentId0 = None →
   ∃ line,
     handleDeleteStudent (Some (studentId0, studentName)) w = (Ok tt, log line w)).
Proof.
  split_and!.
  - intros Hblank. unfold handleAddStudent. by rewrite Hblank.
  - intros Hblank Hrej. unfold handleAddStudent, setDoc. rewrite Hblank. io_unfold.
    rewrite Hrej. simpl. eauto.
  - intros Hfail. unfold handleDeleteStudent, updateDoc_profile. io_unfold. simpl.
    destruct (rejects w (profileDoc (publicStudentProfile studentId0))); simpl; [eauto|].
    destruct Hfail as [?|Hnone]; [done|]. rewrite Hnone. simpl. eauto.
Qed.

End Students.

Lemma added_student_logs_in_witness :
  let blank := λ s : string, bool_decide (s = "") in
  (∃ w1 w2,
     handleAddStudent blank 1700000000000 "새학생" "4321" sampleWorld = (Ok tt, w1) ∧
     studentAccounts w1 !! "새학생" = Some "4321" ∧
     login "새학생" "4321" w1 = (Ok (LoginOk "student"), w2)) ∧
  (∃ w1 w2,
     handleAddStudent blank 1700000000000 "__proto__" "4321" sampleWorld = (Ok tt, w1) ∧
     studentAccounts w1 = studentAccounts0 ∧
     login "__proto__" "4321" w1 = (Ok (LoginFailed bad_credentials), w2)).
Proof.
  intros blank. split.
  - destruct (added_student_logs_in blank 1700000000000 sampleWorld "uid-1" "새학생" "4321")
      as (w1 & created & Hadd & _ & _ & _ & Hname & _).
    + intros r. reflexivity.
    + reflexivity.
    + reflexivity.
    + reflexivity.
    + destruct Hname as (Htable & w2 & _ & Hlogin & _).
      * intros Heq. discriminate Heq.
      * exists w1, w2. split; [exact Hadd|]. split; [|exact Hlogin].
        rewrite Htable. reflexivity.
  - destruct (added_student_logs_in blank 1700000000000 sampleWorld "uid-1" "__proto__"
                "4321") as (w1 & created & Hadd & _ & _ & _ & _ & Hproto).
    + intros r. reflexivity.
    + reflexivity.
    + reflexivity.
    + reflexivity.
    + destruct (Hproto eq_refl) as (Htable & Hlogin).
      destruct Hlogin as (w2 & Hlogin); [reflexivity | reflexivity |].
      exists w1, w2. split; [exact Hadd|]. split; [exact Htable | exact Hlogin].
Defined.

Lemma hidden_student_cannot_log_in_witness :
  ∃ w1 w2,
    handleDeleteStudent (Some ("uid-1", "김대수")) sampleWorld = (Ok tt, w1) ∧
    login "김대수" "1024" w1 = (Ok (LoginFailed bad_credentials), w2).
Proof.
  destruct (hidden_student_cannot_log_in sampleWorld "uid-1" "uid-1" "김대수" "1024"
              sampleProfile) as (w1 & w2 & _ & Hdel & _ & _ & _ & Hlogin).
  - intros r. reflexivity.
  - reflexivity.
  - reflexivity.
  - intros Heq. vm_compute in Heq. discriminate Heq.
  - exists w1, w2. split; [exact Hdel | exact Hlogin].
Defined.

(** ** Generating the missions of the day *)

Section Generation.

Variable userId : string.







(** When the generation fails or gives nothing, the missions stay:
    an error of the call only leaves a line on the console, and [null] or
    an empty list changes nothing at all. *)
Theorem generation_failed_keeps_missions (w : world) (e : error) :
  handleGenerateDailyMissions (Some userId) (Throw e) w
    = (Ok tt, log ("일일 미션 생성 오류: " ++ e) w) ∧
  handleGenerateDailyMissions (Some userId) (Ok None) w = (Ok tt, w) ∧
  handleGenerateDailyMissions (Some userId) (Ok (Some [])) w = (Ok tt, w).
Proof. by split_and!. Qed.

End Generation.


(** ** Answering a question *)

Section Answers.

Variables (normalize : string → string) (userId : string).

(** X26. An answer that differs from the correct one after normalisation
    changes nothing. An answer that agrees with it raises the score of
    problem solving by 15 and no other score, the store accepting the
    writes and the private profile being present; the handler keeps no
    record of answered questions, so the same answer submitted again is
    rewarded again. *)
Theorem answer_rewards (w : world) (answer correct : string) (cur : profile) :
  accepting w →
  privateProfiles w !! userId = Some cur →
  (normalize answer ≠ normalize correct →
   handleAnswerSubmission normalize userId answer correct w = (Ok tt, w)) ∧
  (normalize answer = normalize correct →
   ∃ w1 w2,
     handleAnswerSubmission normalize userId answer correct w = (Ok tt, w1) ∧
     handleAnswerSubmission normalize userId answer correct w1 = (Ok tt, w2) ∧
     ∀ skill,
       score w1 userId skill
         = score w userId skill + (if decide (skill = problem_solving) then 15 else 0) ∧
       score w2 userId skill
         = score w userId skill + 2 * (if decide (skill = problem_solving) then 15 else 0)).
Proof.
  intros Hacc Hcur. unfold handleAnswerSubmission. split.
  - intros Hne. by rewrite bool_decide_eq_false_2.
  - intros Heq. rewrite bool_decide_eq_true_2 by done.
    assert (∀ skill, default 0 (upd_skills answerUpdates ≫= (.!! skill))
                     = if decide (skill = problem_solving) then 15 else 0) as Hreward.
    { intros skill. unfold answerUpdates. simpl. case_decide as Hs.
      - subst. by rewrite lookup_singleton_eq.
      - by rewrite lookup_singleton_ne. }
    pose proof (updateStudentProfile_run w userId userId answerUpdates cur) as Hrun1.
    cbv zeta in Hrun1. rewrite decide_True in Hrun1 by done.
    set (cur1 := mergeProfile (S (clock w)) (updatedProfile cur answerUpdates) cur)
      in Hrun1.
    set (w1 := tick (set_privateProfiles <[userId := cur1]> _)) in Hrun1.
    assert (privateProfiles w1 !! userId = Some cur1) as Hcur1.
    { subst w1. cbn. by rewrite lookup_insert_eq. }
    pose proof (updateStudentProfile_run w1 userId userId answerUpdates cur1) as Hrun2.
    cbv zeta in Hrun2. rewrite decide_True in Hrun2 by done.
    exists w1. eexists. split.
    { apply Hrun1; [apply Hacc|intros _; apply Hacc|].
      unfold docToReadRef. by rewrite decide_True. }
    split.
    { apply Hrun2; [apply Hacc|intros _; apply Hacc|].
      unfold docToReadRef. by rewrite decide_True. }
    intros skill. unfold score.
    rewrite Hcur1, Hcur. cbn. rewrite lookup_insert_eq. subst cur1.
    rewrite !score_updated, Hreward. lia.
Qed.

End Answers.

Lemma answer_rewards_witness :
  ∃ w1,
    handleAnswerSubmission (λ s, s) "uid-1" "42" "42" sampleWorld = (Ok tt, w1) ∧
    score w1 "uid-1" problem_solving = score sampleWorld "uid-1" problem_solving + 15.
Proof.
  destruct (answer_rewards (λ s, s) "uid-1" sampleWorld "42" "42" sampleProfile)
    as [_ Hright].
  - intros r. reflexivity.
  - reflexivity.
  - destruct (Hright eq_refl) as (w1 & w2 & Hrun & _ & Hscore).
    exists w1. split; [exact Hrun|]. exact (proj1 (Hscore problem_solving)).
Defined.

(** ** Adding recommended missions *)

Section Recommended.

Variable studentId0 : string.





End Recommended.
